(** * Synthetic history generators of the morning-market dashboard

    A shallow embedding of the two chart generators of the dashboard:

    - [MarketDashboard.generateMockVixData] and the anchoring shift of
      [MarketDashboard.chartData] (the one-year volatility walk);
    - [StockDetailModal.chartData] with its parsers [parsePrice] and
      [parseChange] (the 30-day price path).

    Numbers.  A JavaScript number is modelled by [JS.num]: NaN, the two
    infinities, or a finite value, the two zeros being identified.  (The
    only divisor of the program that can be zero is [1 + changeRate], which
    is never the negative zero.)  The programs are embedded twice.

    - In [MarketDashboard] and [StockDetailModal] a finite value is an
      exact rational: arithmetic neither rounds nor overflows nor
      underflows; only [parseFloat] returns an infinity, for a literal
      past the largest binary64 number.  The general statements are proved
      on this arithmetic, and are worded so that they hold of binary64
      numbers up to their representation error: a recorded value is placed
      within half a hundredth of the exact one rather than equated with its
      rounding, and magnitudes are bounded where binary64 would overflow,
      underflow or no longer tell hundredths apart.
    - [Binary64] is binary64 arithmetic itself, every result rounded to the
      nearest number of 53 significant bits, with overflow and gradual
      underflow; [MarketDashboard64] and [StockDetailModal64] are the same
      programs on it.  They are evaluated at the inputs where a rounding
      tie or the end of the range decides what the program returns.

    Out of scope: rendering and the memoisation of React (a chart is
    computed afresh from its inputs).

    Ambient state.  [Math.random()], [new Date()], the local time zone and
    the locale formatter are read from an explicit environment [JS.Env]:
    the [i]-th iteration of a loop reads the [i]-th draw of the random
    source. *)

From Stdlib Require Import ZArith QArith Qround Qabs Qminmax Lia Lqa.
From Stdlib Require Import List String Ascii Bool.
Import ListNotations.

Open Scope Q_scope.

(* ================================================================== *)
(** ** JavaScript numbers                                              *)
(* ================================================================== *)

Module JS.

Inductive num : Type :=
| NaN
| Inf (negative : bool)
| Fin (q : Q).

(** A finite result of exact arithmetic, kept in lowest terms so that long
    computations stay small.  ([Binary64.round] is its binary64
    counterpart.) *)
Definition fin (q : Q) : num := Fin (Qred q).

Definition Qlt_bool (a b : Q) : bool := negb (Qle_bool b a).

(** [x + y] *)
Definition add (x y : num) : num :=
  match x, y with
  | NaN, _ => NaN
  | _, NaN => NaN
  | Inf a, Inf b => if Bool.eqb a b then Inf a else NaN
  | Inf a, Fin _ => Inf a
  | Fin _, Inf b => Inf b
  | Fin a, Fin b => fin (a + b)
  end.

(** [x - y] *)
Definition sub (x y : num) : num :=
  match x, y with
  | NaN, _ => NaN
  | _, NaN => NaN
  | Inf a, Inf b => if Bool.eqb a b then NaN else Inf a
  | Inf a, Fin _ => Inf a
  | Fin _, Inf b => Inf (negb b)
  | Fin a, Fin b => fin (a - b)
  end.

(** [x * y] *)
Definition mul (x y : num) : num :=
  match x, y with
  | NaN, _ => NaN
  | _, NaN => NaN
  | Inf a, Inf b => Inf (xorb a b)
  | Inf a, Fin q =>
      if Qeq_bool q 0 then NaN else Inf (xorb a (Qlt_bool q 0))
  | Fin q, Inf b =>
      if Qeq_bool q 0 then NaN else Inf (xorb (Qlt_bool q 0) b)
  | Fin a, Fin b => fin (a * b)
  end.

(** [x / y]; a finite value over zero is an infinity, zero over zero is
    NaN. *)
Definition div (x y : num) : num :=
  match x, y with
  | NaN, _ => NaN
  | _, NaN => NaN
  | Inf _, Inf _ => NaN
  | Inf a, Fin q => Inf (xorb a (Qlt_bool q 0))
  | Fin _, Inf _ => Fin 0
  | Fin a, Fin b =>
      if Qeq_bool b 0
      then (if Qeq_bool a 0 then NaN else Inf (Qlt_bool a 0))
      else fin (a / b)
  end.

(** [-x] *)
Definition neg (x : num) : num :=
  match x with
  | NaN => NaN
  | Inf a => Inf (negb a)
  | Fin q => fin (- q)
  end.

(** [x < y]: false as soon as one side is NaN. *)
Definition lt (x y : num) : bool :=
  match x, y with
  | NaN, _ => false
  | _, NaN => false
  | Inf a, Inf b => a && negb b
  | Inf a, Fin _ => a
  | Fin _, Inf b => negb b
  | Fin a, Fin b => Qlt_bool a b
  end.

(** [x <= y] *)
Definition le (x y : num) : bool :=
  match x, y with
  | NaN, _ => false
  | _, NaN => false
  | Inf a, Inf b => a || negb b
  | Inf a, Fin _ => a
  | Fin _, Inf b => negb b
  | Fin a, Fin b => Qle_bool a b
  end.

(** [x >= y] *)
Definition ge (x y : num) : bool := le y x.

Definition isNaN (x : num) : bool :=
  match x with NaN => true | _ => false end.

(** [Math.abs(x)] *)
Definition Math_abs (x : num) : num :=
  match x with
  | NaN => NaN
  | Inf _ => Inf false
  | Fin q => Fin (Qabs q)
  end.

(** [Math.max(x, y)]: NaN if either argument is. *)
Definition Math_max (x y : num) : num :=
  match x, y with
  | NaN, _ => NaN
  | _, NaN => NaN
  | _, _ => if lt x y then y else x
  end.

(** [Math.min(x, y)] *)
Definition Math_min (x y : num) : num :=
  match x, y with
  | NaN, _ => NaN
  | _, NaN => NaN
  | _, _ => if lt y x then y else x
  end.

(** Truthiness of a number: NaN and zero are falsy. *)
Definition truthy (x : num) : bool :=
  match x with
  | NaN => false
  | Inf _ => true
  | Fin q => negb (Qeq_bool q 0)
  end.

(** [x || y] on numbers. *)
Definition or_else (x y : num) : num := if truthy x then x else y.

(** The integer nearest to [q], ties away from zero. *)
Definition round_half_away (q : Q) : Z :=
  if Qle_bool 0 q then Qfloor (q + (1 # 2)) else (- Qfloor (- q + (1 # 2)))%Z.

(** [q] rounded to hundredths. *)
Definition round2 (q : Q) : Q := inject_Z (round_half_away (q * 100)) / 100.

(** [Number(x.toFixed(2))].  [toFixed(2)] prints the decimal with two
    fraction digits nearest to [x] (of two equally near, the larger in
    magnitude) and [Number] reads it back; NaN and the infinities print as
    their names and read back as themselves.  Above 1e21 [toFixed] prints
    the number in full, and a binary64 value that large is an integer, which
    rounding to hundredths leaves unchanged too. *)
Definition toFixed2 (x : num) : num :=
  match x with
  | Fin q => fin (round2 q)
  | other => other
  end.

(** [represents x q]: [x] is the finite number of value [q]. *)
Definition represents (x : num) (q : Q) : Prop :=
  match x with
  | Fin q' => q' == q
  | _ => False
  end.

(** The value of a finite number (0 for the others). *)
Definition valueOf (x : num) : Q :=
  match x with
  | Fin q => q
  | _ => 0
  end.

(** *** Strings

    A string is a sequence of bytes (UTF-8).  Both character classes used
    by the program are ASCII, so every byte of a character outside ASCII is
    removed by the replacements below, as the character itself is in
    JavaScript. *)

Definition isDigit (c : ascii) : bool :=
  let n := nat_of_ascii c in ((48 <=? n) && (n <=? 57))%nat.

Definition digitValue (c : ascii) : Z := Z.of_nat (nat_of_ascii c - 48).

(** The class [[0-9.]] *)
Definition digit_or_dot (c : ascii) : bool :=
  isDigit c || Ascii.eqb c "."%char.

(** The class [[0-9.-]] *)
Definition digit_dot_or_minus (c : ascii) : bool :=
  isDigit c || Ascii.eqb c "."%char || Ascii.eqb c "-"%char.

(** [s.replace(/[^cls]/g, '')]: the characters of [s] that are in [cls]. *)
Fixpoint replace_outside (cls : ascii -> bool) (s : string) : string :=
  match s with
  | EmptyString => EmptyString
  | String c r =>
      if cls c then String c (replace_outside cls r) else replace_outside cls r
  end.

(** [s.includes(c)] for a one-character needle. *)
Fixpoint includes (s : string) (c : ascii) : bool :=
  match s with
  | EmptyString => false
  | String d r => Ascii.eqb d c || includes r c
  end.

(** The run of decimal digits at the head of [s], read onto [acc]: the
    number read, how many digits it had, and the rest of the string. *)
Fixpoint digits (s : string) (acc : Z) (n : nat) : Z * nat * string :=
  match s with
  | EmptyString => (acc, n, s)
  | String c r =>
      if isDigit c then digits r (acc * 10 + digitValue c)%Z (S n)
      else (acc, n, s)
  end.

(** The longest prefix of [s] that is an unsigned decimal literal: digits,
    an optional point and digits, one digit at least. *)
Definition parseUnsigned (s : string) : option Q :=
  let '(ip, ni, s2) := digits s 0%Z 0%nat in
  let '(m, nf) :=
    match s2 with
    | String c r =>
        if Ascii.eqb c "."%char
        then let '(m, nf, _) := digits r ip 0%nat in (m, nf)
        else (ip, 0%nat)
    | EmptyString => (ip, 0%nat)
    end in
  if (ni + nf =? 0)%nat then None
  else Some (inject_Z m / inject_Z (10 ^ Z.of_nat nf)).

(** A decimal literal of this magnitude or more is read as an infinity:
    [2^1024 - 2^970] lies half-way between the largest binary64 number and
    [2^1024], and rounds up. *)
Definition overflows (magnitude : Q) : bool :=
  Qle_bool (inject_Z (2 ^ 1024 - 2 ^ 970)) magnitude.

(** [parseFloat(s)]: the longest prefix of [s] that is a decimal literal
    (an optional sign, then an unsigned literal), or NaN if there is none;
    a literal too large for a finite number is an infinity.  Leading white
    space, exponents and the word Infinity are not modelled: the program
    only parses strings from which every character but digits, points and
    minus signs has been removed. *)
Definition parseFloat (s : string) : num :=
  let '(negative, s1) :=
    match s with
    | String c r =>
        if Ascii.eqb c "-"%char then (true, r)
        else if Ascii.eqb c "+"%char then (false, r)
        else (false, s)
    | EmptyString => (false, s)
    end in
  match parseUnsigned s1 with
  | None => NaN
  | Some magnitude =>
      if overflows magnitude then Inf negative
      else fin (if negative then - magnitude else magnitude)
  end.

(** *** Ambient state and dates *)

Record Env : Type := {
  (** [new Date()]: the time value of the call, in ms since the epoch *)
  now : Z;
  (** the offset of local time, in ms: [LocalTZA t true] at the UTC
      instant [t], [LocalTZA t false] at the local time [t] *)
  LocalTZA : Z -> bool -> Z;
  (** the successive results of [Math.random()] *)
  random : nat -> Q;
  (** [date.toLocaleDateString(locale, options)] of a time value *)
  toLocaleDateString : string -> list (string * string) -> Z -> string
}.

Definition msPerDay : Z := 86400000.

Definition LocalTime (env : Env) (t : Z) : Z := (t + LocalTZA env t true)%Z.

Definition UTC (env : Env) (t : Z) : Z := (t - LocalTZA env t false)%Z.

(** [date.setDate(date.getDate() - k)] on a date of time value [t], as
    the new time value.  [setDate(dt)] sets the time value to
    [UTC(MakeDate(MakeDay(year, month, dt), TimeWithinDay(local)))] where
    [local = LocalTime(t)]; [MakeDay] is linear in [dt] (a day of the month
    out of range runs into the neighbouring months), so with
    [dt = getDate() - k] the new local time is [k] days before [local]. *)
Definition setDate_minus (env : Env) (t : Z) (k : Z) : Z :=
  UTC env (LocalTime env t - k * msPerDay)%Z.

(** From one local day to the next the offset of local time moves by less
    than a day (daylight saving moves it by an hour). *)
Definition steady_zone (env : Env) : Prop :=
  forall l : Z,
    (Z.abs (LocalTZA env (l + msPerDay) false - LocalTZA env l false)
     < msPerDay)%Z.

(** [Math.random()] returns a number of the interval [[0, 1)]. *)
Definition unit_random (env : Env) : Prop :=
  forall i : nat, 0 <= random env i /\ random env i < 1.

End JS.

Import JS.

(* ================================================================== *)
(** ** The volatility chart: one year of mock data, anchored           *)
(* ================================================================== *)

Module MarketDashboard.

Record sample : Type := {
  timestamp : Z;
  dateStr : string;
  month : string;
  VIX : num
}.

(** One day of the walk: a random step, mean reversion, hard limits.
    [r] is the day's [Math.random()]. *)
Definition nextValue (baseValue : num) (r : Q) : num :=
  let change := mul (sub (Fin r) (Fin 0.5)) (Fin 2) in
  let baseValue := add baseValue change in
  let baseValue := add baseValue (mul (sub (Fin 15) baseValue) (Fin 0.02)) in
  Math_max (Fin 10) (Math_min (Fin 45) baseValue).

(** The record pushed on day [i], once [baseValue] is updated. *)
Definition entry (env : Env) (i : nat) (baseValue : num) : sample :=
  let date := setDate_minus env (now env) (364 - Z.of_nat i) in
  {| timestamp := date;
     dateStr :=
       toLocaleDateString env "en-US"
         [("month", "short"); ("day", "numeric")]%string date;
     month := toLocaleDateString env "en-US" [("month", "short")]%string date;
     VIX := toFixed2 baseValue |}.

(** The [for] loop from iteration [i] on, with [n] iterations left. *)
Fixpoint loop (env : Env) (n i : nat) (baseValue : num) (data : list sample)
  : list sample :=
  match n with
  | O => data
  | S n' =>
      let baseValue := nextValue baseValue (random env i) in
      loop env n' (S i) baseValue (data ++ [entry env i baseValue])
  end.

Definition generateMockVixData (env : Env) : list sample :=
  loop env 365 0 (Fin 13.5) [].

(** The stripped and parsed [value] of the VIX item. *)
Definition parseVix (value : string) : num :=
  parseFloat (replace_outside digit_or_dot value).

(** [realVixValue]: [None] is [null] (no VIX item among the indices). *)
Definition realVixValue (realVixItemValue : option string) : option num :=
  option_map parseVix realVixItemValue.

(** The shift of one record by [diff]. *)
Definition shifted (diff : num) (d : sample) : sample :=
  {| timestamp := timestamp d;
     dateStr := dateStr d;
     month := month d;
     VIX := Math_max (Fin 0) (toFixed2 (add (VIX d) diff)) |}.

(** The memoised [chartData].  [None] is the TypeError of reading [VIX]
    of [undefined], were [data] empty. *)
Definition chartData (env : Env) (realVixValue : option num)
  : option (list sample) :=
  let data := generateMockVixData env in
  match realVixValue with
  | Some v =>
      if negb (isNaN v) then
        match nth_error data (List.length data - 1) with
        | Some lastRecord =>
            let lastMockVal := VIX lastRecord in
            let diff := sub v lastMockVal in
            Some (map (shifted diff) data)
        | None => None
        end
      else Some data
  | None => Some data
  end.

(** [latestVix]: the value of the last record of the chart. *)
Definition latestVix (chartData : list sample) : option num :=
  option_map VIX (nth_error chartData (List.length chartData - 1)).

(** The value of record [i] of a series (0 out of range). *)
Definition vixAt (series : list sample) (i : nat) : Q :=
  match nth_error series i with
  | Some d => valueOf (VIX d)
  | None => 0
  end.

(** The walk as the specification words it: from the baseline, each day
    adds the perturbation [p], moves 2% of the distance to the reversion
    target, and clamps to the band. *)
Definition spec_baseline : Q := 13.5.
Definition spec_target : Q := 15.
Definition spec_floor : Q := 10.
Definition spec_ceiling : Q := 45.

Definition spec_clamp (v : Q) : Q :=
  Qmax spec_floor (Qmin spec_ceiling v).

Definition spec_day (v p : Q) : Q :=
  let v := v + p in
  let v := v + (2 # 100) * (spec_target - v) in
  spec_clamp v.

Fixpoint spec_walk (p : nat -> Q) (days : nat) : Q :=
  match days with
  | O => spec_baseline
  | S d => spec_day (spec_walk p d) (p d)
  end.

(** The perturbation the code draws on day [i]. *)
Definition perturbation (env : Env) (i : nat) : Q := (random env i - (1 # 2)) * 2.

(** The value of [baseValue] after [k] iterations. *)
Fixpoint walk (env : Env) (k : nat) : num :=
  match k with
  | O => Fin 13.5
  | S k' => nextValue (walk env k') (random env k')
  end.

(** The value recorded on day [i] of the walk, and on its last day. *)
Definition recorded (env : Env) (i : nat) : Q :=
  round2 (spec_walk (perturbation env) (S i)).

Definition lastMock (env : Env) : Q := recorded env 364.

End MarketDashboard.

(* ================================================================== *)
(** ** The stock detail chart: thirty days up to the current price     *)
(* ================================================================== *)

Module Types.

(** Modelled from the spec: the declaration of [StockItem] (the types file
    of the application) is not among the sources.  Its fields are the ones
    the component reads; the price and the change are the loosely formatted
    display strings of the external interface. *)
Record StockItem : Type := {
  ticker : string;
  name : string;
  price : string;
  change : string
}.

End Types.

Module StockDetailModal.

(** A point of the chart. *)
Record point : Type := {
  date : string;
  price : num
}.

Definition parsePrice (priceStr : string) : num :=
  or_else (parseFloat (replace_outside digit_dot_or_minus priceStr)) (Fin 0).

Definition parseChange (changeStr : string) : num :=
  let isNegative := includes changeStr "-"%char in
  let val := parseFloat (replace_outside digit_or_dot changeStr) in
  div (if isNegative then neg val else val) (Fin 100).

Definition days : nat := 30.
Definition volatility : num := Fin 0.02.

(** The estimated price 30 days ago. *)
Definition startPrice (currentPrice changeRate : num) : num :=
  let price := div currentPrice (add (Fin 1) changeRate) in
  if lt (Math_abs changeRate) (Fin 0.001) then mul currentPrice (Fin 0.95)
  else price.

(** [progress] of iteration [i]: from 0 to 1. *)
Definition progress (i : nat) : num :=
  div (Fin (inject_Z (Z.of_nat i))) (Fin (inject_Z (Z.of_nat (days - 1)))).

Definition targetTrend (currentPrice price : num) (i : nat) : num :=
  add (mul currentPrice (progress i)) (mul price (sub (Fin 1) (progress i))).

(** [r] is the iteration's [Math.random()]. *)
Definition randomFluctuation (currentPrice price : num) (i : nat) (r : Q)
  : num :=
  mul (mul (targetTrend currentPrice price i) (sub (Fin r) (Fin 0.5)))
      volatility.

(** [dailyPrice] of iteration [i], before it is rounded into the record:
    the trend plus the fluctuation, but the current price on the last
    day. *)
Definition dailyPrice (currentPrice price : num) (i : nat) (r : Q) : num :=
  let dailyPrice :=
    add (targetTrend currentPrice price i)
        (randomFluctuation currentPrice price i r) in
  if (i =? days - 1)%nat then currentPrice else dailyPrice.

Definition entry (env : Env) (currentPrice startingPrice : num) (i : nat)
  : point :=
  let date := setDate_minus env (now env) (Z.of_nat (days - 1 - i)) in
  {| date :=
       toLocaleDateString env "ko-KR"
         [("month", "numeric"); ("day", "numeric")]%string date;
     price :=
       toFixed2 (dailyPrice currentPrice startingPrice i (random env i)) |}.

(** The [for] loop from iteration [i] on, with [n] iterations left. *)
Fixpoint loop (env : Env) (currentPrice startingPrice : num) (n i : nat)
  (data : list point) : list point :=
  match n with
  | O => data
  | S n' =>
      loop env currentPrice startingPrice n' (S i)
        (data ++ [entry env currentPrice startingPrice i])
  end.

(** [chartData]; the local [price] of the source is [startingPrice] here,
    [price] being the field of the points. *)
Definition chartData (env : Env) (currentPrice changeRate : num) : list point :=
  let startingPrice := startPrice currentPrice changeRate in
  loop env currentPrice startingPrice days 0 [].

(** The chart of a stock item, from its two display strings. *)
Definition stockChart (env : Env) (stock : Types.StockItem) : list point :=
  chartData env (parsePrice (Types.price stock))
            (parseChange (Types.change stock)).

End StockDetailModal.

(* ================================================================== *)
(** ** Concrete environments                                           *)
(* ================================================================== *)

Module Examples.

(** A clock in UTC and a formatter that prints nothing, around the random
    source [r]. *)
Definition utc_env (r : nat -> Q) : Env :=
  {| now := 1793664000000;
     LocalTZA := fun _ _ => 0%Z;
     random := r;
     toLocaleDateString := fun _ _ _ => EmptyString |}.

(** [Math.random()] returns 0 on the first 364 calls and 0.75 on the
    next. *)
Definition low_then_high (i : nat) : Q :=
  if (i <? 364)%nat then 0 else 3 # 4.

(** [Math.random()] always returns 0.5. *)
Definition half (_ : nat) : Q := 1 # 2.

Definition stock (priceStr changeStr : string) : Types.StockItem :=
  {| Types.ticker := "ACME";
     Types.name := "Acme";
     Types.price := priceStr;
     Types.change := changeStr |}.

End Examples.

(* ================================================================== *)
(** ** The rest of the components: the VIX item, the insight card,     *)
(** ** the modal and the stock tables                                  *)
(* ================================================================== *)

Module MoreStrings.

(** [s.includes(needle)].  On well-formed strings a needle occurs among
    the bytes of the UTF-8 form exactly where it occurs among the code
    units of the UTF-16 form. *)
Fixpoint includesString (s needle : string) : bool :=
  prefix needle s ||
  match s with
  | EmptyString => false
  | String _ r => includesString r needle
  end.

(** [s.startsWith(p)] *)
Definition startsWith (s p : string) : bool := prefix p s.

Definition upperChar (c : ascii) : ascii :=
  let n := nat_of_ascii c in
  if ((97 <=? n) && (n <=? 122))%nat then ascii_of_nat (n - 32) else c.

(** [s.toUpperCase()], as far as the ASCII letters of its result go: the
    ASCII letters are put in upper case, and so are the three characters
    outside ASCII whose upper-case form has a letter of VIX, the dotless i
    (U+0131, bytes 196 177) and the ligatures fi and ffi (U+FB01 and
    U+FB03, bytes 239 172 129 and 239 172 131).  The bytes of every other
    character outside ASCII are kept: its upper-case form has no letter of
    VIX, so that VIX occurs in the result here exactly where it does in
    JavaScript, which is all the program asks of it. *)
Fixpoint toUpperCase (s : string) : string :=
  match s with
  | EmptyString => EmptyString
  | String "196" (String "177" r) => String "I" (toUpperCase r)
  | String "239" (String "172" (String "129" r)) =>
      String "F" (String "I" (toUpperCase r))
  | String "239" (String "172" (String "131" r)) =>
      String "F" (String "F" (String "I" (toUpperCase r)))
  | String c r => String (upperChar c) (toUpperCase r)
  end.

(** How many digits a string has. *)
Definition digitCount (s : string) : nat :=
  String.length (replace_outside isDigit s).

(** The line feed of a template literal. *)
Definition LF : string := String (ascii_of_nat 10) EmptyString.

(** [s.split('\n')] *)
Fixpoint splitLines (s : string) : list string :=
  match s with
  | EmptyString => [EmptyString]
  | String c r =>
      if Ascii.eqb c (ascii_of_nat 10) then EmptyString :: splitLines r
      else
        match splitLines r with
        | l :: ls => String c l :: ls
        | [] => [String c EmptyString]
        end
  end.

End MoreStrings.

Import MoreStrings.

Module DashboardView.

(** Modelled from the spec: the declaration of [MarketIndex] (the types
    file of the application) is not among the sources.  Its fields are the
    ones of the default indices below: display strings and a flag. *)
Record MarketIndex : Type := {
  name : string;
  value : string;
  change : string;
  isPositive : bool
}.

(** The card of [getVixInsight]; the icon is the name of its component
    and its class. *)
Record Insight : Type := {
  sentiment : string;
  desc : string;
  stance : string;
  stanceDesc : string;
  icon : string * string;
  color : string
}.

Definition getVixInsight (currentVix : num) : Insight :=
  if ge currentVix (Fin 25) then
    {| sentiment := "공포 (Extreme Fear)";
       desc := "시장 변동성이 매우 큽니다. 패닉 셀링이 나올 수 있는 구간입니다.";
       stance := "분할 매수 (Aggressive Buy)";
       stanceDesc := "공포가 극에 달했을 때가 단기 바닥일 가능성이 높습니다. 우량주 저가 매수 기회.";
       icon := ("AlertTriangle", "h-5 w-5 text-rose-200")%string;
       color := "text-rose-200" |}
  else if ge currentVix (Fin 17) then
    {| sentiment := "경계 (Caution)";
       desc := "불확실성이 증가하고 있습니다. 등락 폭이 커질 수 있습니다.";
       stance := "관망 및 헷징 (Hold/Hedge)";
       stanceDesc := "현금 비중을 유지하며 리스크 관리에 집중할 때입니다. 섣부른 추격 매수 자제.";
       icon := ("ShieldCheck", "h-5 w-5 text-amber-200")%string;
       color := "text-amber-200" |}
  else
    {| sentiment := "안정/탐욕 (Stable)";
       desc := "시장이 비교적 안정적인 상승 추세를 보이고 있습니다.";
       stance := "추세 추종 (Trend Following)";
       stanceDesc := "상승 모멘텀을 즐기되, 급격한 조정에 대비해 이익 실현 전략도 병행하세요.";
       icon := ("TrendingUp", "h-5 w-5 text-emerald-200")%string;
       color := "text-emerald-200" |}.

Definition defaultIndices : list MarketIndex :=
  [ {| name := "S&P 500"; value := "5,234.18"; change := "+1.2%";
       isPositive := true |};
    {| name := "NASDAQ"; value := "16,428.82"; change := "+1.5%";
       isPositive := true |};
    {| name := "Dow Jones"; value := "39,150.33"; change := "-0.4%";
       isPositive := false |};
    {| name := "USD/KRW"; value := "1,345.50"; change := "+0.3%";
       isPositive := true |};
    {| name := "VIX"; value := "13.50"; change := "-1.2%";
       isPositive := false |} ].

(** [indices && indices.length > 0 ? indices : defaultIndices]; [None] is
    the absent property. *)
Definition displayIndices (indices : option (list MarketIndex))
  : list MarketIndex :=
  match indices with
  | Some (i :: rest) => i :: rest
  | _ => defaultIndices
  end.

Definition realVixItem (displayIndices : list MarketIndex)
  : option MarketIndex :=
  find (fun i => includesString (toUpperCase (name i)) "VIX"
                 || includesString (name i) "변동성")
       displayIndices.

Definition realVixValue (displayIndices : list MarketIndex) : option num :=
  MarketDashboard.realVixValue (option_map value (realVixItem displayIndices)).

Definition cardsIndices (displayIndices : list MarketIndex)
  : list MarketIndex :=
  filter (fun i => negb (includesString (toUpperCase (name i)) "VIX")
                   && negb (includesString (name i) "변동성"))
         displayIndices.

(** What the component computes before it draws: the cards, the chart,
    the level shown beside it and the insight card. *)
Record Rendered : Type := {
  shownIndices : list MarketIndex;
  shownChart : list MarketDashboard.sample;
  shownVix : num;
  shownInsight : Insight
}.

(** The component; [None] is a TypeError. *)
Definition MarketDashboard (env : Env) (indices : option (list MarketIndex))
  : option Rendered :=
  let displayIndices := displayIndices indices in
  match MarketDashboard.chartData env (realVixValue displayIndices) with
  | None => None
  | Some chartData =>
      match MarketDashboard.latestVix chartData with
      | None => None
      | Some latestVix =>
          Some {| shownIndices := displayIndices;
                  shownChart := chartData;
                  shownVix := latestVix;
                  shownInsight := getVixInsight latestVix |}
      end
  end.

End DashboardView.

Module StockView.

(** [isPositive] of the modal: the colour of its header and chart. *)
Definition isPositive (changeStr : string) : bool :=
  negb (includes changeStr "-"%char).

Record Modal : Type := {
  modalChart : list StockDetailModal.point;
  modalPositive : bool
}.

(** The modal of a selected stock; [None] is the [null] it returns when
    there is none. *)
Definition StockDetailModal (env : Env) (stock : option Types.StockItem)
  : option Modal :=
  match stock with
  | None => None
  | Some stock =>
      Some {| modalChart := StockDetailModal.stockChart env stock;
              modalPositive := isPositive (Types.change stock) |}
  end.

(** The tables of the report, which open the modal. *)
Inductive tableType : Type := gainer | loser | neutral.

Definition isGainer (type : tableType) : bool :=
  match type with gainer => true | _ => false end.

Definition isLoser (type : tableType) : bool :=
  match type with loser => true | _ => false end.

(** The class of the change cell of a row. *)
Definition changeClass (change : string) (type : tableType) : string :=
  if startsWith change "+" || isGainer type then "text-emerald-600"
  else if startsWith change "-" || isLoser type then "text-rose-600"
  else "text-slate-600".

Definition row (item : Types.StockItem) : string :=
  (Types.ticker item ++ " | " ++ Types.name item ++ " | "
   ++ Types.price item ++ " | " ++ Types.change item)%string.

Definition formatTableData (title : string) (items : list Types.StockItem)
  : string :=
  match items with
  | [] => (title ++ LF ++ "데이터 없음")%string
  | _ =>
      let header := (title ++ LF ++ "티커 | 종목명 | 현재가 | 등락률")%string in
      let rows := String.concat LF (map row items) in
      (header ++ LF ++ rows)%string
  end.

End StockView.

Module MoreExamples.

Definition indices_with_vix (vix : string) : list DashboardView.MarketIndex :=
  [ {| DashboardView.name := "NASDAQ"; DashboardView.value := "16,428.82";
       DashboardView.change := "+1.5%"; DashboardView.isPositive := true |};
    {| DashboardView.name := "Cboe Vix"; DashboardView.value := vix;
       DashboardView.change := "+3.1%"; DashboardView.isPositive := true |} ].

(** [Math.random()] always returns 0.75. *)
Definition three_quarters (_ : nat) : Q := 3 # 4.

(** [n] zeros in a row. *)
Fixpoint zeros (n : nat) : string :=
  match n with
  | O => EmptyString
  | S n' => String "0" (zeros n')
  end.

End MoreExamples.

(* ================================================================== *)
(** ** The same programs on binary64 numbers                           *)
(* ================================================================== *)

Module Binary64.

(** [2^e] *)
Definition pow2 (e : Z) : Q := 2 ^ e.

(** The exponent of a positive rational: the largest [e] with
    [2^e <= a]. *)
Definition ilog2 (a : Q) : Z :=
  let e := (Z.log2 (Qnum a) - Z.log2 (Zpos (Qden a)))%Z in
  if Qle_bool (pow2 e) a then e else (e - 1)%Z.

(** The integer nearest to [q], ties to the even one ([q] not negative). *)
Definition round_half_even (q : Q) : Z :=
  let f := Qfloor q in
  match Qcompare (q - inject_Z f) (1 # 2) with
  | Lt => f
  | Gt => (f + 1)%Z
  | Eq => if Z.even f then f else (f + 1)%Z
  end.

(** The binary64 number nearest to [q], ties to the even significand:
    a significand of 53 bits, exponents from -1022 (below which the spacing
    stays [2^-1074], so that small results lose bits and the smallest become
    0) to 1023 (above which the result is an infinity).  The two zeros are
    identified. *)
Definition round (q : Q) : num :=
  if Qeq_bool q 0 then Fin 0
  else
    let a := Qabs q in
    let e := Z.max (ilog2 a) (-1022) in
    let ulp := pow2 (e - 52) in
    let v := inject_Z (round_half_even (a / ulp)) * ulp in
    if Qle_bool (pow2 1024) v then Inf (Qlt_bool q 0)
    else Fin (Qred (if Qlt_bool q 0 then - v else v)).

(** A decimal literal of the source. *)
Definition lit (q : Q) : num := round q.

(** [x + y]: the exact sum of two finite numbers, rounded. *)
Definition add (x y : num) : num :=
  match x, y with
  | Fin a, Fin b => round (a + b)
  | _, _ => JS.add x y
  end.

(** [x - y] *)
Definition sub (x y : num) : num :=
  match x, y with
  | Fin a, Fin b => round (a - b)
  | _, _ => JS.sub x y
  end.

(** [x * y] *)
Definition mul (x y : num) : num :=
  match x, y with
  | Fin a, Fin b => round (a * b)
  | _, _ => JS.mul x y
  end.

(** [x / y] *)
Definition div (x y : num) : num :=
  match x, y with
  | Fin a, Fin b => if Qeq_bool b 0 then JS.div x y else round (a / b)
  | _, _ => JS.div x y
  end.

(** [Number(x.toFixed(2))]: the decimal with two fraction digits nearest
    to the exact value of [x], read back as a binary64 number. *)
Definition toFixed2 (x : num) : num :=
  match x with
  | Fin q => round (round2 q)
  | other => other
  end.

(** [parseFloat(s)]: the binary64 number nearest to the literal. *)
Definition parseFloat (s : string) : num :=
  let '(negative, s1) :=
    match s with
    | String c r =>
        if Ascii.eqb c "-"%char then (true, r)
        else if Ascii.eqb c "+"%char then (false, r)
        else (false, s)
    | EmptyString => (false, s)
    end in
  match parseUnsigned s1 with
  | None => NaN
  | Some magnitude => round (if negative then - magnitude else magnitude)
  end.

(** Magnitudes far from both ends of the binary64 range, from 1e-100 to
    1e100: the arithmetic of the stock chart neither overflows nor
    underflows on them. *)
Definition moderate (q : Q) : Prop :=
  1 # (10 ^ 100)%positive <= q /\ q <= inject_Z (10 ^ 100).

(** The change rates above -100%, up to 1e100: the binary64 numbers above
    -1 are the ones from [-1 + 2^-53] on. *)
Definition above_full_drop (r : Q) : Prop :=
  -1 + (1 # (2 ^ 53)%positive) <= r /\ r <= inject_Z (10 ^ 100).

(** The change rates below -100%, down to -1e100: the binary64 numbers
    below -1 are the ones up to [-1 - 2^-52]. *)
Definition below_full_drop (r : Q) : Prop :=
  - inject_Z (10 ^ 100) <= r /\ r <= -1 - (1 # (2 ^ 52)%positive).

End Binary64.

(** The volatility chart on binary64 numbers: the values only, as the
    dates do not depend on them. *)
Module MarketDashboard64.

Definition nextValue (baseValue : num) (r : Q) : num :=
  let change :=
    Binary64.mul (Binary64.sub (Fin r) (Binary64.lit 0.5)) (Fin 2) in
  let baseValue := Binary64.add baseValue change in
  let baseValue :=
    Binary64.add baseValue
      (Binary64.mul (Binary64.sub (Fin 15) baseValue) (Binary64.lit 0.02)) in
  Math_max (Fin 10) (Math_min (Fin 45) baseValue).

(** The value of [baseValue] after [k] iterations. *)
Fixpoint walk (env : Env) (k : nat) : num :=
  match k with
  | O => Fin 13.5
  | S k' => nextValue (walk env k') (random env k')
  end.

(** [data[i].VIX] *)
Definition VIX (env : Env) (i : nat) : num :=
  Binary64.toFixed2 (walk env (S i)).

Definition parseVix (value : string) : num :=
  Binary64.parseFloat (replace_outside digit_or_dot value).

(** [chartData[i].VIX] for a parsed value that is not NaN. *)
Definition shiftedVIX (env : Env) (realVixValue : num) (i : nat) : num :=
  let lastMockVal := VIX env 364 in
  let diff := Binary64.sub realVixValue lastMockVal in
  Math_max (Fin 0) (Binary64.toFixed2 (Binary64.add (VIX env i) diff)).

End MarketDashboard64.

(** The stock chart on binary64 numbers. *)
Module StockDetailModal64.

Definition parsePrice (priceStr : string) : num :=
  or_else (Binary64.parseFloat (replace_outside digit_dot_or_minus priceStr))
          (Fin 0).

Definition parseChange (changeStr : string) : num :=
  let isNegative := includes changeStr "-"%char in
  let val := Binary64.parseFloat (replace_outside digit_or_dot changeStr) in
  Binary64.div (if isNegative then neg val else val) (Fin 100).

Definition volatility : num := Binary64.lit 0.02.

Definition startPrice (currentPrice changeRate : num) : num :=
  let price := Binary64.div currentPrice (Binary64.add (Fin 1) changeRate) in
  if lt (Math_abs changeRate) (Binary64.lit 0.001)
  then Binary64.mul currentPrice (Binary64.lit 0.95)
  else price.

Definition progress (i : nat) : num :=
  Binary64.div (Fin (inject_Z (Z.of_nat i)))
               (Fin (inject_Z (Z.of_nat (StockDetailModal.days - 1)))).

Definition targetTrend (currentPrice price : num) (i : nat) : num :=
  Binary64.add (Binary64.mul currentPrice (progress i))
               (Binary64.mul price (Binary64.sub (Fin 1) (progress i))).

Definition randomFluctuation (currentPrice price : num) (i : nat) (r : Q)
  : num :=
  Binary64.mul
    (Binary64.mul (targetTrend currentPrice price i)
                  (Binary64.sub (Fin r) (Binary64.lit 0.5)))
    volatility.

Definition dailyPrice (currentPrice price : num) (i : nat) (r : Q) : num :=
  let dailyPrice :=
    Binary64.add (targetTrend currentPrice price i)
                 (randomFluctuation currentPrice price i r) in
  if (i =? StockDetailModal.days - 1)%nat then currentPrice else dailyPrice.

(** [data[i].price] of the chart. *)
Definition price (env : Env) (currentPrice changeRate : num) (i : nat) : num :=
  Binary64.toFixed2
    (dailyPrice currentPrice (startPrice currentPrice changeRate) i
                (random env i)).

End StockDetailModal64.

(* ================================================================== *)
(** ** Facts about numbers, rounding and parsing                       *)
(* ================================================================== *)

Module NumFacts.

Lemma represents_fin (q : Q) : represents (fin q) q.
Proof. cbn [fin represents]. apply Qred_correct. Qed.

Lemma represents_Fin (q : Q) : represents (Fin q) q.
Proof. simpl. reflexivity. Qed.

Lemma represents_eq (x : num) (a b : Q) :
  represents x a -> a == b -> represents x b.
Proof. destruct x; cbn [represents]; try tauto. intros H1 H2. now rewrite H1. Qed.

Lemma represents_value (x : num) (a : Q) :
  represents x a -> valueOf x == a.
Proof. destruct x; simpl; tauto. Qed.

Lemma represents_unique (x : num) (a b : Q) :
  represents x a -> represents x b -> a == b.
Proof.
  destruct x; cbn [represents]; try tauto. intros H1 H2.
  now rewrite <- H1, <- H2.
Qed.

Lemma Qlt_bool_iff (a b : Q) : Qlt_bool a b = true <-> a < b.
Proof.
  unfold Qlt_bool. rewrite negb_true_iff.
  split; intro H.
  - apply Qnot_le_lt. intro L. apply Qle_bool_iff in L. congruence.
  - destruct (Qle_bool b a) eqn:E; [|reflexivity].
    apply Qle_bool_iff in E. lra.
Qed.

Lemma Qlt_bool_false_iff (a b : Q) : Qlt_bool a b = false <-> b <= a.
Proof.
  unfold Qlt_bool. rewrite negb_false_iff. apply Qle_bool_iff.
Qed.

Lemma add_represents (x y : num) (a b : Q) :
  represents x a -> represents y b -> represents (add x y) (a + b).
Proof.
  destruct x, y; cbn [represents add sub mul fin]; try tauto. intros H1 H2.
  rewrite Qred_correct, H1, H2. reflexivity.
Qed.

Lemma sub_represents (x y : num) (a b : Q) :
  represents x a -> represents y b -> represents (sub x y) (a - b).
Proof.
  destruct x, y; cbn [represents add sub mul fin]; try tauto. intros H1 H2.
  rewrite Qred_correct, H1, H2. reflexivity.
Qed.

Lemma mul_represents (x y : num) (a b : Q) :
  represents x a -> represents y b -> represents (mul x y) (a * b).
Proof.
  destruct x, y; cbn [represents add sub mul fin]; try tauto. intros H1 H2.
  rewrite Qred_correct, H1, H2. reflexivity.
Qed.

Lemma div_represents (x y : num) (a b : Q) :
  represents x a -> represents y b -> ~ b == 0 ->
  represents (div x y) (a / b).
Proof.
  destruct x as [| |p], y as [| |q]; cbn [represents div]; try tauto.
  intros H1 H2 Hb.
  destruct (Qeq_bool q 0) eqn:E.
  - apply Qeq_bool_eq in E. rewrite H2 in E. contradiction.
  - cbn [represents fin]. rewrite Qred_correct, H1, H2. reflexivity.
Qed.

Lemma lt_represents (x y : num) (a b : Q) :
  represents x a -> represents y b -> lt x y = Qlt_bool a b.
Proof.
  destruct x as [| |p], y as [| |q]; cbn [represents lt]; try tauto. intros H1 H2.
  unfold Qlt_bool. now rewrite H1, H2.
Qed.

Lemma le_represents (x y : num) (a b : Q) :
  represents x a -> represents y b -> le x y = Qle_bool a b.
Proof.
  destruct x as [| |p], y as [| |q]; cbn [represents le]; try tauto. intros H1 H2.
  now rewrite H1, H2.
Qed.

Lemma abs_represents (x : num) (a : Q) :
  represents x a -> represents (Math_abs x) (Qabs a).
Proof.
  destruct x; cbn [represents Math_abs]; try tauto. intros H. now rewrite H.
Qed.

Lemma max_represents (x y : num) (a b : Q) :
  represents x a -> represents y b -> represents (Math_max x y) (Qmax a b).
Proof.
  destruct x as [| |p], y as [| |q]; cbn [represents Math_max lt]; try tauto. intros H1 H2.
  destruct (Qlt_bool p q) eqn:E; cbn [represents].
  - apply Qlt_bool_iff in E. rewrite Q.max_r by lra. exact H2.
  - apply Qlt_bool_false_iff in E. rewrite Q.max_l by lra. exact H1.
Qed.

Lemma min_represents (x y : num) (a b : Q) :
  represents x a -> represents y b -> represents (Math_min x y) (Qmin a b).
Proof.
  destruct x as [| |p], y as [| |q]; cbn [represents Math_min lt]; try tauto. intros H1 H2.
  destruct (Qlt_bool q p) eqn:E; cbn [represents].
  - apply Qlt_bool_iff in E. rewrite Q.min_r by lra. exact H2.
  - apply Qlt_bool_false_iff in E. rewrite Q.min_l by lra. exact H1.
Qed.

Lemma represents_inv (x : num) (q : Q) :
  represents x q -> exists q', x = Fin q' /\ q' == q.
Proof.
  destruct x as [| |p]; cbn [represents]; try tauto.
  intros H. now exists p.
Qed.

End NumFacts.

Module RoundFacts.
Import NumFacts.

Lemma Qfloor_unique (x : Q) (z : Z) :
  inject_Z z <= x -> x < inject_Z (z + 1) -> Qfloor x = z.
Proof.
  intros H1 H2.
  pose proof (Qfloor_le x) as F1. pose proof (Qlt_floor x) as F2.
  assert (L1 : (Qfloor x < z + 1)%Z) by (rewrite Zlt_Qlt; lra).
  assert (L2 : (z < Qfloor x + 1)%Z) by (rewrite Zlt_Qlt; lra).
  lia.
Qed.

Lemma Qfloor_add_Z (k : Z) (x : Q) :
  Qfloor (inject_Z k + x) = (k + Qfloor x)%Z.
Proof.
  apply Qfloor_unique.
  - rewrite inject_Z_plus. pose proof (Qfloor_le x). lra.
  - replace (k + Qfloor x + 1)%Z with (k + (Qfloor x + 1))%Z by lia.
    rewrite inject_Z_plus. pose proof (Qlt_floor x). lra.
Qed.

Lemma round_half_away_comp (a b : Q) :
  a == b -> round_half_away a = round_half_away b.
Proof.
  intros E. unfold round_half_away.
  rewrite (Qleb_comp 0 0 (Qeq_refl 0) a b E).
  destruct (Qle_bool 0 b); [|f_equal]; apply Qfloor_comp; rewrite E; reflexivity.
Qed.

Lemma round_half_away_near (q : Q) :
  inject_Z (round_half_away q) - (1 # 2) <= q /\
  q <= inject_Z (round_half_away q) + (1 # 2).
Proof.
  unfold round_half_away. destruct (Qle_bool 0 q) eqn:E.
  - pose proof (Qfloor_le (q + (1 # 2))). pose proof (Qlt_floor (q + (1 # 2))) as L.
    rewrite inject_Z_plus in L. change (inject_Z 1) with 1 in L. lra.
  - pose proof (Qfloor_le (- q + (1 # 2))).
    pose proof (Qlt_floor (- q + (1 # 2))) as L.
    rewrite inject_Z_plus in L. change (inject_Z 1) with 1 in L.
    rewrite inject_Z_opp. lra.
Qed.

Lemma round_half_away_lower (q : Q) (k : Z) :
  inject_Z k <= q -> (k <= round_half_away q)%Z.
Proof.
  intros H. unfold round_half_away. destruct (Qle_bool 0 q).
  - rewrite <- (Qfloor_Z k). apply Qfloor_resp_le. lra.
  - pose proof (Qfloor_le (- q + (1 # 2))) as F.
    assert (L : (Qfloor (- q + (1 # 2)) < - k + 1)%Z).
    { rewrite Zlt_Qlt, inject_Z_plus, inject_Z_opp.
      change (inject_Z 1) with 1. lra. }
    lia.
Qed.

Lemma round_half_away_upper (q : Q) (k : Z) :
  q <= inject_Z k -> (round_half_away q <= k)%Z.
Proof.
  intros H. unfold round_half_away. destruct (Qle_bool 0 q).
  - pose proof (Qfloor_le (q + (1 # 2))) as F.
    assert (L : (Qfloor (q + (1 # 2)) < k + 1)%Z).
    { rewrite Zlt_Qlt, inject_Z_plus. change (inject_Z 1) with 1. lra. }
    lia.
  - assert (L : (- k <= Qfloor (- q + (1 # 2)))%Z).
    { rewrite <- (Qfloor_Z (- k)). apply Qfloor_resp_le.
      rewrite inject_Z_opp. lra. }
    lia.
Qed.

Lemma round_half_away_Z (k : Z) : round_half_away (inject_Z k) = k.
Proof.
  apply Z.le_antisymm.
  - apply round_half_away_upper. lra.
  - apply round_half_away_lower. lra.
Qed.

Ltac over100 := unfold Qdiv in *; change (/ 100) with (1 # 100) in *.

Lemma round2_comp (a b : Q) : a == b -> round2 a = round2 b.
Proof.
  intros E. unfold round2. f_equal. f_equal.
  apply round_half_away_comp. now rewrite E.
Qed.

Lemma round2_near (q : Q) :
  - (1 # 200) <= round2 q - q /\ round2 q - q <= 1 # 200.
Proof.
  unfold round2. pose proof (round_half_away_near (q * 100)) as [A B].
  set (n := inject_Z (round_half_away (q * 100))) in *.
  over100. lra.
Qed.

Lemma round2_lower (q : Q) (k : Z) :
  inject_Z k / 100 <= q -> inject_Z k / 100 <= round2 q.
Proof.
  intros H. unfold round2.
  assert (L : (k <= round_half_away (q * 100))%Z)
    by (apply round_half_away_lower; over100; lra).
  rewrite Zle_Qle in L. over100. lra.
Qed.

Lemma round2_upper (q : Q) (k : Z) :
  q <= inject_Z k / 100 -> round2 q <= inject_Z k / 100.
Proof.
  intros H. unfold round2.
  assert (L : (round_half_away (q * 100) <= k)%Z)
    by (apply round_half_away_upper; over100; lra).
  rewrite Zle_Qle in L. over100. lra.
Qed.

Lemma round2_hundredth (k : Z) : round2 (inject_Z k / 100) == inject_Z k / 100.
Proof.
  unfold round2.
  rewrite (round_half_away_comp (inject_Z k / 100 * 100) (inject_Z k))
    by (field).
  rewrite round_half_away_Z. reflexivity.
Qed.

(** Rounding a non-negative sum of a hundredth and [d]. *)
Lemma round2_shift (k : Z) (d : Q) :
  0 <= inject_Z k / 100 + d ->
  round2 (inject_Z k / 100 + d)
  == inject_Z k / 100 + inject_Z (Qfloor (d * 100 + (1 # 2))) / 100.
Proof.
  intros H. unfold round2, round_half_away.
  assert (E : Qle_bool 0 ((inject_Z k / 100 + d) * 100) = true)
    by (apply Qle_bool_iff; over100; lra).
  rewrite E.
  rewrite (Qfloor_comp _ (inject_Z k + (d * 100 + (1 # 2)))) by field.
  rewrite Qfloor_add_Z, inject_Z_plus. field.
Qed.

Lemma round2_nonneg (q : Q) : 0 <= q -> 0 <= round2 q.
Proof.
  intros H. apply Qle_trans with (inject_Z 0 / 100); [compute; discriminate|].
  apply round2_lower. apply Qle_trans with 0; [compute; discriminate|exact H].
Qed.

Lemma round2_band (q : Q) : 10 <= q <= 45 -> 10 <= round2 q <= 45.
Proof.
  intros [L U]. split.
  - apply Qle_trans with (inject_Z 1000 / 100); [compute; discriminate|].
    apply round2_lower. apply Qle_trans with 10; [compute; discriminate | exact L].
  - apply Qle_trans with (inject_Z 4500 / 100); [|compute; discriminate].
    apply round2_upper. apply Qle_trans with 45; [exact U | compute; discriminate].
Qed.

Lemma toFixed2_represents (x : num) (q : Q) :
  represents x q -> represents (toFixed2 x) (round2 q).
Proof.
  destruct x as [| |p]; cbn [represents toFixed2]; try tauto.
  intros H. rewrite (round2_comp p q H). apply represents_fin.
Qed.

End RoundFacts.

Module WalkFacts.
Import NumFacts RoundFacts MarketDashboard.

Section Walk.
Variable env : Env.

Lemma loop_map (n i : nat) (data : list sample) :
  loop env n i (walk env i) data
  = data ++ map (fun k => entry env k (walk env (S k))) (seq i n).
Proof.
  revert i data. induction n as [|n IH]; intros i data.
  - cbn [loop seq map]. now rewrite app_nil_r.
  - cbn [loop seq map].
    change (nextValue (walk env i) (random env i)) with (walk env (S i)).
    rewrite IH, <- app_assoc. reflexivity.
Qed.

Lemma generateMockVixData_map :
  generateMockVixData env
  = map (fun k => entry env k (walk env (S k))) (seq 0 365).
Proof.
  unfold generateMockVixData.
  change (Fin 13.5) with (walk env 0).
  now rewrite loop_map.
Qed.

Lemma generateMockVixData_length :
  List.length (generateMockVixData env) = 365%nat.
Proof.
  rewrite generateMockVixData_map, length_map, length_seq. reflexivity.
Qed.

Lemma generateMockVixData_nth (i : nat) :
  (i < 365)%nat ->
  nth_error (generateMockVixData env) i = Some (entry env i (walk env (S i))).
Proof.
  intros H. rewrite generateMockVixData_map.
  rewrite nth_error_map, nth_error_seq.
  destruct (Nat.ltb_spec i 365); [reflexivity | lia].
Qed.

Lemma generateMockVixData_nth_none (i : nat) :
  (365 <= i)%nat -> nth_error (generateMockVixData env) i = None.
Proof.
  intros H. apply nth_error_None. now rewrite generateMockVixData_length.
Qed.

Lemma spec_clamp_band (v : Q) : 10 <= spec_clamp v /\ spec_clamp v <= 45.
Proof.
  unfold spec_clamp, spec_floor, spec_ceiling. split.
  - apply Q.le_max_l.
  - apply Q.max_lub; [lra | apply Q.le_min_l].
Qed.

Lemma spec_walk_band (p : nat -> Q) (k : nat) :
  10 <= spec_walk p k /\ spec_walk p k <= 45.
Proof.
  destruct k as [|k]; cbn [spec_walk].
  - unfold spec_baseline. lra.
  - apply spec_clamp_band.
Qed.

Lemma nextValue_represents (b : num) (v r : Q) :
  represents b v ->
  represents (nextValue b r) (spec_day v ((r - (1 # 2)) * 2)).
Proof.
  intros H. unfold nextValue, spec_day, spec_clamp.
  apply max_represents; [apply represents_Fin|].
  apply min_represents; [apply represents_Fin|].
  set (b' := add b _).
  assert (H' : represents b' (v + (r - (1 # 2)) * 2)).
  { apply add_represents; [exact H|].
    apply mul_represents; [|apply represents_Fin].
    apply (represents_eq _ (r - 0.5)); [|lra].
    apply sub_represents; apply represents_Fin. }
  eapply represents_eq.
  - apply add_represents; [exact H'|].
    apply mul_represents; [|apply represents_Fin].
    apply sub_represents; [apply represents_Fin | exact H'].
  - unfold spec_target. lra.
Qed.

Lemma walk_represents (k : nat) :
  represents (walk env k) (spec_walk (perturbation env) k).
Proof.
  induction k as [|k IH]; cbn [walk spec_walk].
  - apply represents_Fin.
  - apply nextValue_represents. exact IH.
Qed.

(** The value recorded on day [i]. *)
Lemma entry_VIX (i : nat) :
  represents (VIX (entry env i (walk env (S i)))) (recorded env i).
Proof.
  cbn [entry VIX]. apply toFixed2_represents, walk_represents.
Qed.

Lemma entry_timestamp (i : nat) (b : num) :
  timestamp (entry env i b)
  = setDate_minus env (now env) (364 - Z.of_nat i).
Proof. reflexivity. Qed.

Lemma latestVix_generate :
  latestVix (generateMockVixData env) = Some (toFixed2 (walk env 365)).
Proof.
  unfold latestVix. rewrite generateMockVixData_length.
  change (365 - 1)%nat with 364%nat.
  rewrite generateMockVixData_nth by lia. reflexivity.
Qed.

End Walk.
End WalkFacts.

Module ParseFacts.
Import NumFacts.

Lemma digits_nonneg (s : string) (acc : Z) (n : nat) :
  (0 <= acc)%Z -> (0 <= fst (fst (digits s acc n)))%Z.
Proof.
  revert acc n. induction s as [|c r IH]; intros acc n H; cbn [digits].
  - exact H.
  - destruct (isDigit c); [|exact H].
    apply IH. unfold digitValue. lia.
Qed.

Lemma parseUnsigned_nonneg (s : string) (q : Q) :
  parseUnsigned s = Some q -> 0 <= q.
Proof.
  unfold parseUnsigned.
  pose proof (digits_nonneg s 0 0 (Z.le_refl 0)) as Hip.
  destruct (digits s 0 0) as [[ip ni] s2]. cbn [fst] in Hip.
  assert (G : forall m nf, (0 <= m)%Z ->
            (if (ni + nf =? 0)%nat then None
             else Some (inject_Z m / inject_Z (10 ^ Z.of_nat nf))) = Some q ->
            0 <= q).
  { intros m nf Hm. destruct (ni + nf =? 0)%nat; [discriminate|].
    intros [= <-]. apply Qle_shift_div_l.
    - replace 0 with (inject_Z 0) by reflexivity. rewrite <- Zlt_Qlt.
      apply Z.pow_pos_nonneg; lia.
    - rewrite Qmult_0_l. replace 0 with (inject_Z 0) by reflexivity.
      now rewrite <- Zle_Qle. }
  destruct s2 as [|c r]; [apply G; exact Hip|].
  destruct (Ascii.eqb c "."); [|apply G; exact Hip].
  pose proof (digits_nonneg r ip 0 Hip) as Hm.
  destruct (digits r ip 0) as [[m nf] rest]. cbn [fst] in Hm.
  apply G; exact Hm.
Qed.

Lemma replace_outside_head (cls : ascii -> bool) (s : string) (c : ascii)
  (r : string) :
  replace_outside cls s = String c r -> cls c = true.
Proof.
  induction s as [|d t IH]; cbn [replace_outside]; [discriminate|].
  destruct (cls d) eqn:E; [|exact IH].
  intros [= <- _]. exact E.
Qed.

(** A string stripped to digits and points is parsed as an unsigned
    literal. *)
Lemma parseFloat_unsigned (s : string) :
  parseFloat (replace_outside digit_or_dot s)
  = match parseUnsigned (replace_outside digit_or_dot s) with
    | None => NaN
    | Some q => if overflows q then Inf false else fin q
    end.
Proof.
  unfold parseFloat.
  destruct (replace_outside digit_or_dot s) as [|c r] eqn:E; [reflexivity|].
  apply replace_outside_head in E.
  destruct (Ascii.eqb_spec c "-") as [->|_]; [discriminate E|].
  destruct (Ascii.eqb_spec c "+") as [->|_]; [discriminate E|].
  reflexivity.
Qed.

Lemma parseVix_nonneg (s : string) (a : Q) :
  MarketDashboard.parseVix s = Fin a -> 0 <= a.
Proof.
  unfold MarketDashboard.parseVix. rewrite parseFloat_unsigned.
  destruct (parseUnsigned _) as [q|] eqn:E; [|discriminate].
  destruct (overflows q); [discriminate|].
  apply parseUnsigned_nonneg in E. unfold fin. intros [= <-].
  now rewrite Qred_correct.
Qed.

(** The index parser returns NaN, a finite number that is not negative,
    or the positive infinity. *)
Lemma parseVix_cases (s : string) :
  MarketDashboard.parseVix s = NaN \/
  (exists a, MarketDashboard.parseVix s = Fin a /\ 0 <= a) \/
  MarketDashboard.parseVix s = Inf false.
Proof.
  destruct (MarketDashboard.parseVix s) as [|b|a] eqn:E.
  - now left.
  - right. right. unfold MarketDashboard.parseVix in E.
    rewrite parseFloat_unsigned in E.
    destruct (parseUnsigned _) as [q|]; [|discriminate].
    destruct (overflows q); [now symmetry|discriminate].
  - right. left. exists a. split; [reflexivity|].
    now apply parseVix_nonneg with s.
Qed.

Lemma parseVix_not_negative (s : string) :
  MarketDashboard.parseVix s = NaN \/
  le (Fin 0) (MarketDashboard.parseVix s) = true.
Proof.
  destruct (parseVix_cases s) as [H|[[a [H Ha]]|H]]; [now left| |]; right;
    rewrite H; cbn [le]; [|reflexivity].
  now apply Qle_bool_iff.
Qed.

Lemma replace_outside_no_minus (s : string) :
  includes s "-" = false ->
  replace_outside digit_dot_or_minus s = replace_outside digit_or_dot s.
Proof.
  induction s as [|c r IH]; cbn [includes replace_outside]; [reflexivity|].
  intros H. apply orb_false_iff in H as [Hc Hr].
  unfold digit_dot_or_minus at 1. fold (digit_or_dot c).
  rewrite Hc, orb_false_r, (IH Hr). reflexivity.
Qed.

Lemma parseFloat_minus (t : string) :
  parseFloat (String "-" t)
  = match parseUnsigned t with
    | None => NaN
    | Some q => if overflows q then Inf true else fin (- q)
    end.
Proof. reflexivity. Qed.

Lemma or_else_zero_opp (m q : Q) :
  represents (or_else (fin m) (Fin 0)) q ->
  represents (or_else (fin (- m)) (Fin 0)) (- q).
Proof.
  unfold or_else, fin. cbn [truthy].
  assert (E : Qeq_bool (Qred (- m)) 0 = Qeq_bool (Qred m) 0).
  { destruct (Qeq_bool (Qred m) 0) eqn:E1.
    - apply Qeq_bool_eq in E1. apply Qeq_eq_bool.
      rewrite Qred_correct in *. lra.
    - apply Qeq_bool_neq in E1.
      destruct (Qeq_bool (Qred (- m)) 0) eqn:E2; [|reflexivity].
      apply Qeq_bool_eq in E2. exfalso. apply E1.
      rewrite Qred_correct in *. lra. }
  rewrite E. destruct (Qeq_bool (Qred m) 0); cbn [negb represents].
  - intros H. lra.
  - rewrite !Qred_correct. intros H. lra.
Qed.

(** A minus sign in front of a string without one negates the parsed
    price. *)
Lemma parsePrice_minus (s : string) (q : Q) :
  includes s "-" = false ->
  represents (StockDetailModal.parsePrice s) q ->
  represents (StockDetailModal.parsePrice (String "-" s)) (- q).
Proof.
  intros H. unfold StockDetailModal.parsePrice.
  change (replace_outside digit_dot_or_minus (String "-" s))
    with (String "-"%char (replace_outside digit_dot_or_minus s)).
  rewrite parseFloat_minus, (replace_outside_no_minus s H), parseFloat_unsigned.
  destruct (parseUnsigned _) as [m|].
  - destruct (overflows m); [|apply or_else_zero_opp].
    unfold or_else. cbn [truthy represents]. tauto.
  - unfold or_else. cbn [truthy represents]. intros E. lra.
Qed.

Lemma parseVix_minus (s : string) :
  MarketDashboard.parseVix (String "-" s) = MarketDashboard.parseVix s.
Proof. reflexivity. Qed.

(** The examples of the source comments. *)
Example parsePrice_dollar :
  represents (StockDetailModal.parsePrice "$150.23") 150.23.
Proof. vm_compute. reflexivity. Qed.

Example parseChange_percent :
  represents (StockDetailModal.parseChange "+2.5%") 0.025.
Proof. vm_compute. reflexivity. Qed.

Example parseChange_negative :
  represents (StockDetailModal.parseChange "-1.1%") (- 0.011).
Proof. vm_compute. reflexivity. Qed.

Example parseVix_percent :
  represents (MarketDashboard.parseVix "14.30%") 14.3.
Proof. vm_compute. reflexivity. Qed.

Example parseFloat_two_points : represents (parseFloat "1.2.3") 1.2.
Proof. vm_compute. reflexivity. Qed.

Example parseFloat_no_digit : parseFloat "-." = NaN.
Proof. reflexivity. Qed.

End ParseFacts.

Module ChartFacts.
Import NumFacts RoundFacts ParseFacts WalkFacts MarketDashboard.

Section Chart.
Variable env : Env.

Lemma chartData_null : chartData env None = Some (generateMockVixData env).
Proof. reflexivity. Qed.

Lemma chartData_NaN : chartData env (Some NaN) = Some (generateMockVixData env).
Proof. reflexivity. Qed.

Lemma chartData_number (v : num) :
  isNaN v = false ->
  chartData env (Some v)
  = Some (map (shifted (sub v (toFixed2 (walk env 365))))
              (generateMockVixData env)).
Proof.
  intros H. unfold chartData. cbv zeta. rewrite H. cbn [negb].
  rewrite generateMockVixData_length. change (365 - 1)%nat with 364%nat.
  rewrite generateMockVixData_nth by lia. reflexivity.
Qed.

Lemma chartData_total (r : option num) :
  exists series, chartData env r = Some series /\ List.length series = 365%nat.
Proof.
  destruct r as [v|].
  - destruct (isNaN v) eqn:E.
    + destruct v; try discriminate. eexists. split; [apply chartData_NaN|].
      apply generateMockVixData_length.
    + eexists. split; [apply chartData_number, E|].
      rewrite length_map. apply generateMockVixData_length.
  - eexists. split; [apply chartData_null|]. apply generateMockVixData_length.
Qed.

Lemma shifted_nth (diff : num) (i : nat) :
  (i < 365)%nat ->
  nth_error (map (shifted diff) (generateMockVixData env)) i
  = Some (shifted diff (entry env i (walk env (S i)))).
Proof.
  intros H. rewrite nth_error_map, generateMockVixData_nth by exact H.
  reflexivity.
Qed.

Lemma shifted_VIX_represents (diff : num) (d : sample) (v delta : Q) :
  represents (VIX d) v -> represents diff delta ->
  represents (VIX (shifted diff d)) (Qmax 0 (round2 (v + delta))).
Proof.
  intros Hv Hd. cbn [shifted VIX].
  apply max_represents; [apply represents_Fin|].
  apply toFixed2_represents, add_represents; assumption.
Qed.

Lemma diff_represents (a : Q) :
  represents (sub (Fin a) (toFixed2 (walk env 365))) (a - lastMock env).
Proof.
  apply sub_represents; [apply represents_Fin|].
  apply toFixed2_represents, walk_represents.
Qed.

(** Consecutive days are one local day apart, so their time values are
    less than two days apart and in order. *)
Lemma timestamp_step (i : nat) (b b' : num) :
  steady_zone env ->
  (timestamp (entry env i b) < timestamp (entry env (S i) b')
   < timestamp (entry env i b) + 2 * msPerDay)%Z.
Proof.
  intros Hz. rewrite !entry_timestamp. unfold setDate_minus, UTC.
  set (l := (LocalTime env (now env) - (364 - Z.of_nat i) * msPerDay)%Z).
  replace (LocalTime env (now env) - (364 - Z.of_nat (S i)) * msPerDay)%Z
    with (l + msPerDay)%Z by (unfold l; lia).
  specialize (Hz l). lia.
Qed.

End Chart.
End ChartFacts.

Module ShiftFacts.
Import NumFacts RoundFacts ParseFacts WalkFacts ChartFacts.
Import MarketDashboard.

Lemma vixAt_generate (env : Env) (i : nat) :
  (i < 365)%nat -> vixAt (generateMockVixData env) i == recorded env i.
Proof.
  intros H. unfold vixAt. rewrite generateMockVixData_nth by exact H.
  apply represents_value, entry_VIX.
Qed.

Lemma recorded_hundredth (env : Env) (i : nat) :
  exists k : Z, recorded env i = inject_Z k / 100.
Proof. unfold recorded, round2. eexists. reflexivity. Qed.

Lemma recorded_band (env : Env) (i : nat) :
  10 <= recorded env i <= 45.
Proof. apply round2_band, spec_walk_band. Qed.

Lemma vixAt_shifted (env : Env) (a : Q) (i : nat) :
  (i < 365)%nat ->
  vixAt (map (shifted (sub (Fin a) (toFixed2 (walk env 365))))
             (generateMockVixData env)) i
  == Qmax 0 (round2 (recorded env i + (a - lastMock env))).
Proof.
  intros H. unfold vixAt. rewrite shifted_nth by exact H.
  apply represents_value, shifted_VIX_represents.
  - apply entry_VIX.
  - apply diff_represents.
Qed.

(** A shifted value that the floor at zero leaves alone is the recorded
    value plus a constant. *)
Lemma vixAt_shifted_unclipped (env : Env) (a : Q) (i : nat) :
  (i < 365)%nat ->
  0 <= recorded env i + (a - lastMock env) ->
  vixAt (map (shifted (sub (Fin a) (toFixed2 (walk env 365))))
             (generateMockVixData env)) i
  == recorded env i
     + inject_Z (Qfloor ((a - lastMock env) * 100 + (1 # 2))) / 100.
Proof.
  intros H Hpos. rewrite vixAt_shifted by exact H.
  rewrite Q.max_r by (apply round2_nonneg; exact Hpos).
  destruct (recorded_hundredth env i) as [k E]. rewrite E in *.
  apply round2_shift. exact Hpos.
Qed.

End ShiftFacts.

Module MarketDashboardSpec.
Import NumFacts RoundFacts ParseFacts WalkFacts ChartFacts.
Import ShiftFacts MarketDashboard Examples.

Lemma generate_band (env : Env) :
  Forall (fun d => exists q, VIX d = Fin q /\ 10 <= q /\ q <= 45)
         (generateMockVixData env).
Proof.
  rewrite generateMockVixData_map. apply Forall_forall. intros d Hd.
  destruct (proj1 (in_map_iff _ _ _) Hd) as [k [<- _]].
  destruct (represents_inv _ _ (entry_VIX env k)) as [q [E Hq]].
  exists q. split; [exact E|].
  pose proof (recorded_band env k). rewrite Hq. tauto.
Qed.

Lemma max0_nonneg (x : num) :
  isNaN x = false -> le (Fin 0) (Math_max (Fin 0) x) = true.
Proof.
  destruct x as [|[|]|q]; cbn [isNaN Math_max lt le negb]; try discriminate;
    intros _; try reflexivity.
  destruct (Qlt_bool 0 q) eqn:E; cbn [le]; [|reflexivity].
  apply Qlt_bool_iff in E. apply Qle_bool_iff. lra.
Qed.

Lemma shifted_not_NaN (v : num) (q l : Q) :
  isNaN v = false ->
  isNaN (toFixed2 (add (Fin q) (sub v (Fin l)))) = false.
Proof. destruct v as [|[|]|a]; intros H; try discriminate; reflexivity. Qed.

Lemma shifted_nonneg (env : Env) (v : num) :
  isNaN v = false ->
  Forall (fun d => le (Fin 0) (VIX d) = true)
    (map (shifted (sub v (toFixed2 (walk env 365))))
         (generateMockVixData env)).
Proof.
  intros Hv. apply Forall_forall. intros s Hs.
  destruct (proj1 (in_map_iff _ _ _) Hs) as [d [<- Hd]].
  pose proof (generate_band env) as B. rewrite Forall_forall in B.
  destruct (B d Hd) as [q [E _]].
  destruct (represents_inv _ _ (toFixed2_represents _ _ (walk_represents env 365)))
    as [l [El _]].
  cbn [shifted VIX]. rewrite E, El.
  apply max0_nonneg, shifted_not_NaN, Hv.
Qed.

Lemma latestVix_shifted (env : Env) (a : Q) :
  exists last,
    latestVix (map (shifted (sub (Fin a) (toFixed2 (walk env 365))))
                   (generateMockVixData env)) = Some last /\
    represents last (Qmax 0 (round2 a)).
Proof.
  unfold latestVix. rewrite length_map, generateMockVixData_length.
  change (365 - 1)%nat with 364%nat. rewrite shifted_nth by lia.
  eexists. split; [reflexivity|].
  eapply represents_eq.
  - apply shifted_VIX_represents; [apply entry_VIX | apply diff_represents].
  - rewrite (round2_comp (recorded env 364 + (a - lastMock env)) a);
      [reflexivity | unfold lastMock; lra].
Qed.

Lemma series_in_order (env : Env) (diff : num) (i : nat) (s s' : sample) :
  steady_zone env ->
  nth_error (map (shifted diff) (generateMockVixData env)) i = Some s ->
  nth_error (map (shifted diff) (generateMockVixData env)) (S i) = Some s' ->
  (timestamp s < timestamp s' < timestamp s + 2 * msPerDay)%Z.
Proof.
  intros Hz H1 H2.
  assert (L : (S i < 365)%nat).
  { rewrite <- (generateMockVixData_length env),
      <- (length_map (shifted diff)).
    apply nth_error_Some. congruence. }
  rewrite shifted_nth in H1, H2 by lia.
  injection H1 as <-. injection H2 as <-.
  cbn [shifted timestamp]. apply timestamp_step, Hz.
Qed.

(** C1 (amended).  For every VIX string that parses to a finite number
    [a], a billion at most, the chart is a series of exactly 365 records
    whose time values increase strictly, consecutive ones less than two
    days apart (one local day each), and whose last value is a number
    within 0.005 of [a]; it is [a] itself when [a] has at most two
    decimals. *)
Theorem anchored_series (env : Env) (value : string) (a : Q) :
  steady_zone env ->
  parseVix value = Fin a -> a <= 1000000000 ->
  exists series,
    chartData env (realVixValue (Some value)) = Some series /\
    List.length series = 365%nat /\
    (forall i s s',
        nth_error series i = Some s -> nth_error series (S i) = Some s' ->
        (timestamp s < timestamp s' < timestamp s + 2 * msPerDay)%Z) /\
    exists last,
      latestVix series = Some last /\
      (exists q, represents last q /\
                 - (1 # 200) <= q - a /\ q - a <= 1 # 200) /\
      (forall k : Z, a == inject_Z k / 100 -> represents last a).
Proof.
  intros Hz Hp _. pose proof (parseVix_nonneg _ _ Hp) as Ha.
  cbn [realVixValue option_map]. rewrite Hp.
  rewrite chartData_number by reflexivity.
  eexists. split; [reflexivity|]. split; [|split].
  - rewrite length_map. apply generateMockVixData_length.
  - intros i s s'. apply series_in_order, Hz.
  - destruct (latestVix_shifted env a) as [last [E R]].
    exists last. split; [exact E|].
    assert (R' : represents last (round2 a)).
    { apply (represents_eq _ _ _ R), Q.max_r, round2_nonneg, Ha. }
    split.
    + exists (round2 a). split; [exact R' | apply round2_near].
    + intros k Hk. apply (represents_eq _ _ _ R').
      rewrite (round2_comp _ _ Hk), Hk. apply round2_hundredth.
Qed.

Lemma anchored_series_witness :
  exists series,
    chartData (utc_env half) (realVixValue (Some "14.30%"%string))
    = Some series /\
    List.length series = 365%nat.
Proof.
  destruct (anchored_series (utc_env half) "14.30%" 14.3) as [series [E [L _]]].
  - intros l. vm_compute. reflexivity.
  - vm_compute. reflexivity.
  - vm_compute. discriminate.
  - exists series. split; [exact E | exact L].
Defined.

(** C1, as stated, fails: the VIX string 14.1234 parses to 14.1234 and the
    last value of the chart is 14.12, which is 0.0034 away from it. *)
Lemma anchor_of_four_decimals_is_rounded :
  represents (parseVix "14.1234") 14.1234 /\
  match chartData (utc_env low_then_high) (realVixValue (Some "14.1234"%string))
  with
  | Some series =>
      match latestVix series with
      | Some last =>
          represents last 14.12 /\
          Qabs (valueOf last - 14.1234) == 34 # 10000 /\
          ~ (Qabs (valueOf last - 14.1234) <= 1 # 1000000000)
      | None => False
      end
  | None => False
  end.
Proof.
  split; [vm_compute; reflexivity|].
  cbn [realVixValue option_map].
  rewrite chartData_number by (vm_compute; reflexivity).
  destruct (latestVix_shifted (utc_env low_then_high) (70617 # 5000))
    as [last [E R]].
  change (parseVix "14.1234") with (Fin (70617 # 5000)).
  rewrite E.
  assert (V : valueOf last == 14.12).
  { rewrite (represents_value _ _ R). vm_compute. reflexivity. }
  split; [|split].
  - apply (represents_eq _ _ _ R). vm_compute. reflexivity.
  - rewrite V. vm_compute. reflexivity.
  - rewrite V. intros H. vm_compute in H. apply H. reflexivity.
Qed.

(** C3 (amended).  For an anchor of a billion at most: whenever neither
    shifted value is cut off by the floor at zero, the shift changes the
    difference between two consecutive values by one hundredth at most,
    and leaves it unchanged when the anchor has at most two decimals. *)
Theorem shift_keeps_unclipped_deltas (env : Env) (a : Q) (i : nat) :
  (S i < 365)%nat -> a <= 1000000000 ->
  exists series,
    chartData env (Some (Fin a)) = Some series /\
    (0 <= vixAt (generateMockVixData env) i
          + (a - vixAt (generateMockVixData env) 364) ->
     0 <= vixAt (generateMockVixData env) (S i)
          + (a - vixAt (generateMockVixData env) 364) ->
     let before :=
       vixAt (generateMockVixData env) (S i)
       - vixAt (generateMockVixData env) i in
     let after := vixAt series (S i) - vixAt series i in
     (- (1 # 100) <= after - before /\ after - before <= 1 # 100) /\
     (forall k : Z, a == inject_Z k / 100 -> after == before)).
Proof.
  intros Hi _. rewrite chartData_number by reflexivity.
  eexists. split; [reflexivity|].
  cbv zeta. rewrite !vixAt_generate by lia. fold (lastMock env).
  intros H1 H2.
  assert (E : vixAt (map (shifted (sub (Fin a) (toFixed2 (walk env 365))))
                         (generateMockVixData env)) (S i)
              - vixAt (map (shifted (sub (Fin a) (toFixed2 (walk env 365))))
                           (generateMockVixData env)) i
              == recorded env (S i) - recorded env i).
  { rewrite !vixAt_shifted_unclipped by (lia || assumption). lra. }
  split; [|intros k _; rewrite !vixAt_generate by lia; exact E].
  rewrite E. split; lra.
Qed.

Lemma shift_keeps_unclipped_deltas_witness :
  exists series,
    chartData (utc_env low_then_high) (Some (Fin 14.3)) = Some series /\
    vixAt series 1 - vixAt series 0
    == vixAt (generateMockVixData (utc_env low_then_high)) 1
       - vixAt (generateMockVixData (utc_env low_then_high)) 0.
Proof.
  destruct (shift_keeps_unclipped_deltas (utc_env low_then_high) 14.3 0)
    as [series [E H]].
  - lia.
  - vm_compute. discriminate.
  - exists series. split; [exact E|].
    lapply H; [clear H; intros H | vm_compute; discriminate].
    lapply H; [clear H; intros H | vm_compute; discriminate].
    cbv zeta in H. destruct H as [_ H].
    apply (H 1430%Z). vm_compute. reflexivity.
Defined.

(** C3, as stated, fails: with the VIX string 0.25 and a walk that sits on
    its floor and rises on the last day, the last two values differ by 0.59
    before the shift and by 0.25 after it. *)
Lemma shift_changes_clipped_delta :
  match chartData (utc_env low_then_high) (realVixValue (Some "0.25"%string))
  with
  | Some series =>
      vixAt (generateMockVixData (utc_env low_then_high)) 364
      - vixAt (generateMockVixData (utc_env low_then_high)) 363 == 0.59 /\
      vixAt series 364 - vixAt series 363 == 0.25 /\
      ~ (vixAt series 364 - vixAt series 363
         == vixAt (generateMockVixData (utc_env low_then_high)) 364
            - vixAt (generateMockVixData (utc_env low_then_high)) 363)
  | None => False
  end.
Proof.
  cbn [realVixValue option_map].
  rewrite chartData_number by (vm_compute; reflexivity).
  split; [vm_compute; reflexivity|].
  split; [vm_compute; reflexivity|].
  intros H. vm_compute in H. discriminate H.
Qed.

(** On binary64 numbers a rounding tie moves an unclipped difference by a
    hundredth: with draws of 0.5 and the VIX string 14.125, the first two
    values are 13.53 and 13.56 before the shift, and 12.65 and 12.69 after
    it (the last value being 14.13). *)
Lemma tie_moves_delta_by_a_hundredth :
  let env := utc_env half in
  let realVixValue := MarketDashboard64.parseVix "14.125" in
  represents realVixValue 14.125 /\
  MarketDashboard64.VIX env 0 = Binary64.lit 13.53 /\
  MarketDashboard64.VIX env 1 = Binary64.lit 13.56 /\
  MarketDashboard64.shiftedVIX env realVixValue 0 = Binary64.lit 12.65 /\
  MarketDashboard64.shiftedVIX env realVixValue 1 = Binary64.lit 12.69 /\
  MarketDashboard64.shiftedVIX env realVixValue 364 = Binary64.lit 14.13.
Proof. vm_compute. repeat split. Qed.

(** On binary64 numbers the record can be the hundredth on either side of
    a value half-way between two: with a first draw of 0.125 the value of
    the recurrence is 12.795 on the first day, and the record is 12.79. *)
Lemma tie_records_lower_hundredth :
  let env := utc_env (fun i => if (i =? 0)%nat then 1 # 8 else 1 # 2) in
  spec_walk (perturbation env) 1 == 12.795 /\
  MarketDashboard64.VIX env 0 = Binary64.lit 12.79 /\
  represents (VIX (entry env 0 (walk env 1))) 12.8.
Proof. vm_compute. repeat split. Qed.

(** C5.  Without an anchor the chart is the raw walk: 365 records, every
    value a number between 10 and 45. *)
Theorem unanchored_band (env : Env) :
  exists series,
    chartData env None = Some series /\
    List.length series = 365%nat /\
    Forall (fun d => exists q, VIX d = Fin q /\ 10 <= q /\ q <= 45) series.
Proof.
  exists (generateMockVixData env). split; [reflexivity|]. split.
  - apply generateMockVixData_length.
  - apply generate_band.
Qed.

(** C6.  The walk of the code is the recurrence of the specification: from
    13.5, each of the 365 days adds a perturbation of the band from -1 to 1
    (the day's random draw, scaled), moves 2% of the way to 15, clamps to
    the band from 10 to 45, and records the value under the day's date,
    oldest day first; the record is a number of the band, within 0.005 of
    the value (it is printed with two decimals). *)
Theorem walk_follows_recurrence (env : Env) :
  unit_random env ->
  List.length (generateMockVixData env) = 365%nat /\
  forall i, (i < 365)%nat ->
    (-1 <= perturbation env i /\ perturbation env i < 1) /\
    represents (walk env (S i)) (spec_walk (perturbation env) (S i)) /\
    exists d,
      nth_error (generateMockVixData env) i = Some d /\
      timestamp d = setDate_minus env (now env) (364 - Z.of_nat i) /\
      exists q,
        represents (VIX d) q /\ 10 <= q /\ q <= 45 /\
        - (1 # 200) <= q - spec_walk (perturbation env) (S i) /\
        q - spec_walk (perturbation env) (S i) <= 1 # 200.
Proof.
  intros Hr. split; [apply generateMockVixData_length|].
  intros i Hi. split; [|split].
  - unfold perturbation. destruct (Hr i). lra.
  - apply walk_represents.
  - eexists. split; [apply generateMockVixData_nth, Hi|].
    split; [reflexivity|].
    exists (round2 (spec_walk (perturbation env) (S i))).
    split; [apply entry_VIX|].
    pose proof (round2_band _ (spec_walk_band (perturbation env) (S i))).
    pose proof (round2_near (spec_walk (perturbation env) (S i))).
    tauto.
Qed.

Lemma walk_follows_recurrence_witness :
  List.length (generateMockVixData (utc_env half)) = 365%nat.
Proof.
  refine (proj1 (walk_follows_recurrence (utc_env half) _)).
  intros i. split; vm_compute; [discriminate | reflexivity].
Defined.

(** C8.  Whatever the anchor (none, NaN or a number), the chart is
    produced and none of its values is negative. *)
Theorem chart_nonnegative (env : Env) (realVixValue : option num) :
  exists series,
    chartData env realVixValue = Some series /\
    Forall (fun d => le (Fin 0) (VIX d) = true) series.
Proof.
  assert (G : Forall (fun d => le (Fin 0) (VIX d) = true)
                     (generateMockVixData env)).
  { eapply Forall_impl; [|apply generate_band].
    intros d [q [E [L _]]]. rewrite E. cbn [le]. apply Qle_bool_iff. lra. }
  destruct realVixValue as [v|].
  2: { exists (generateMockVixData env). split; [apply chartData_null | exact G]. }
  destruct (isNaN v) eqn:E.
  - destruct v; try discriminate.
    exists (generateMockVixData env). split; [apply chartData_NaN | exact G].
  - rewrite chartData_number by exact E.
    eexists. split; [reflexivity|]. apply shifted_nonneg, E.
Qed.

End MarketDashboardSpec.

(* ================================================================== *)
(** ** The stock detail chart: facts and specification                 *)
(* ================================================================== *)

Module StockFacts.
Import NumFacts RoundFacts WalkFacts StockDetailModal.

Section Chart.
Variable env : Env.
Variables currentPrice start : num.

Lemma price_loop_map (n i : nat) (data : list point) :
  loop env currentPrice start n i data
  = data ++ map (entry env currentPrice start) (seq i n).
Proof.
  revert i data. induction n as [|n IH]; intros i data; cbn [loop seq map].
  - now rewrite app_nil_r.
  - rewrite IH, <- app_assoc. reflexivity.
Qed.

End Chart.

Lemma chartData_map (env : Env) (currentPrice changeRate : num) :
  chartData env currentPrice changeRate
  = map (entry env currentPrice (startPrice currentPrice changeRate))
        (seq 0 30).
Proof. unfold chartData. now rewrite price_loop_map. Qed.

Lemma chartData_length (env : Env) (currentPrice changeRate : num) :
  List.length (chartData env currentPrice changeRate) = 30%nat.
Proof. rewrite chartData_map, length_map, length_seq. reflexivity. Qed.

Lemma chartData_nth (env : Env) (currentPrice changeRate : num) (i : nat) :
  (i < 30)%nat ->
  nth_error (chartData env currentPrice changeRate) i
  = Some (entry env currentPrice (startPrice currentPrice changeRate) i).
Proof.
  intros H. rewrite chartData_map, nth_error_map, nth_error_seq.
  destruct (Nat.ltb_spec i 30); [reflexivity | lia].
Qed.


Lemma moderate_positive (c : Q) : Binary64.moderate c -> 0 < c.
Proof.
  intros [H _]. apply Qlt_le_trans with (1 # (10 ^ 100)%positive);
    [reflexivity | exact H].
Qed.

Lemma above_full_drop_above (r : Q) : Binary64.above_full_drop r -> -1 < r.
Proof.
  intros [H _]. apply Qlt_le_trans with (-1 + (1 # (2 ^ 53)%positive));
    [reflexivity | exact H].
Qed.

Lemma below_full_drop_below (r : Q) : Binary64.below_full_drop r -> r < -1.
Proof.
  intros [_ H]. apply Qle_lt_trans with (-1 - (1 # (2 ^ 52)%positive));
    [exact H | reflexivity].
Qed.

(** The start price of a positive price and a rate above -100% is a
    positive number. *)
Lemma startPrice_positive (c r : Q) :
  0 < c -> -1 < r ->
  exists s, represents (startPrice (Fin c) (Fin r)) s /\ 0 < s.
Proof.
  intros Hc Hr. unfold startPrice. cbn [Math_abs lt].
  destruct (Qlt_bool (Qabs r) 0.001).
  - exists (c * 0.95). split; [|lra].
    apply mul_represents; apply represents_Fin.
  - exists (c / (1 + r)). split.
    + apply div_represents; [apply represents_Fin| |lra].
      apply add_represents; apply represents_Fin.
    + apply Qlt_shift_div_l; lra.
Qed.

Lemma progress_represents (i : nat) :
  (i <= 29)%nat ->
  exists p, represents (progress i) p /\ 0 <= p /\ p <= 1.
Proof.
  intros H. exists (inject_Z (Z.of_nat i) / 29). split.
  - apply div_represents; [apply represents_Fin | reflexivity | lra].
  - assert (L0 : inject_Z 0 <= inject_Z (Z.of_nat i))
      by (rewrite <- Zle_Qle; lia).
    assert (L1 : inject_Z (Z.of_nat i) <= inject_Z 29)
      by (rewrite <- Zle_Qle; lia).
    change (inject_Z 0) with 0 in L0. change (inject_Z 29) with 29 in L1.
    split.
    + apply Qle_shift_div_l; lra.
    + apply Qle_shift_div_r; lra.
Qed.

(** The trend between two positive end points is positive. *)
Lemma targetTrend_positive (c s : Q) (start : num) (i : nat) :
  0 < c -> represents start s -> 0 < s -> (i < 30)%nat ->
  exists t, represents (targetTrend (Fin c) start i) t /\ 0 < t.
Proof.
  intros Hc Hs Hs0 Hi.
  destruct (progress_represents i) as [p [Hp [P0 P1]]]; [lia|].
  exists (c * p + s * (1 - p)). split.
  - unfold targetTrend.
    apply add_represents; apply mul_represents;
      try apply represents_Fin; try assumption.
    apply sub_represents; [apply represents_Fin | exact Hp].
  - assert (0 <= c * p) by (apply Qmult_le_0_compat; lra).
    assert (0 <= s * (1 - p)) by (apply Qmult_le_0_compat; lra).
    destruct (Qlt_le_dec 0 p) as [Lp|Lp].
    + assert (0 < c * p) by (apply Qmult_lt_0_compat; lra). lra.
    + assert (0 < s * (1 - p)) by (apply Qmult_lt_0_compat; lra). lra.
Qed.

(** The fluctuation is at most 1% of the trend, in absolute value. *)
Lemma randomFluctuation_small (cp start : num) (t u : Q) (i : nat) :
  represents (targetTrend cp start i) t -> 0 < t -> 0 <= u -> u < 1 ->
  exists n,
    represents (randomFluctuation cp start i u) n /\
    - (t * (1 # 100)) <= n /\ n < t * (1 # 100).
Proof.
  intros Ht T0 U0 U1. exists (t * (u - 0.5) * 0.02). split.
  - unfold randomFluctuation, volatility.
    apply mul_represents; [|apply represents_Fin].
    apply mul_represents; [exact Ht|].
    apply sub_represents; apply represents_Fin.
  - assert (A : 0 <= t * u) by (apply Qmult_le_0_compat; lra).
    assert (B : 0 < t * (1 - u)) by (apply Qmult_lt_0_compat; lra).
    lra.
Qed.

(** Before rounding, every daily price between two positive end points
    is positive, whatever the draw. *)
Lemma dailyPrice_positive (c s u : Q) (start : num) (i : nat) :
  0 < c -> represents start s -> 0 < s -> 0 <= u -> u < 1 ->
  (i < 30)%nat ->
  exists q, represents (dailyPrice (Fin c) start i u) q /\ 0 < q.
Proof.
  intros Hc Hs Hs0 Hu0 Hu1 Hi. unfold dailyPrice.
  destruct (Nat.eqb_spec i (days - 1)) as [E|E].
  - exists c. split; [apply represents_Fin | exact Hc].
  - destruct (targetTrend_positive c s start i Hc Hs Hs0 Hi) as [t [Ht T0]].
    destruct (randomFluctuation_small _ _ t u i Ht T0 Hu0 Hu1)
      as [n [Hn [N0 N1]]].
    exists (t + n). split; [apply add_represents; assumption | lra].
Qed.

End StockFacts.
Module StockDetailModalSpec.
Import NumFacts RoundFacts WalkFacts ParseFacts StockFacts.
Import StockDetailModal Examples.

(** The price recorded on the last day. *)
Lemma last_point (env : Env) (currentPrice changeRate : num) :
  option_map price (nth_error (chartData env currentPrice changeRate) 29)
  = Some (toFixed2 currentPrice).
Proof. rewrite chartData_nth by lia. reflexivity. Qed.

(** The last point in general.  For every current price and change rate
    the chart has exactly 30 points, and the price of the last one is the
    current price rounded to two decimals: it is within 0.005 of the
    current price, and it is the current price itself when that has at most
    two decimals. *)
Lemma endpoint_is_rounded_price (env : Env) (c : Q) (changeRate : num) :
  List.length (chartData env (Fin c) changeRate) = 30%nat /\
  exists last,
    option_map price (nth_error (chartData env (Fin c) changeRate) 29)
    = Some last /\
    represents last (round2 c) /\
    (- (1 # 200) <= valueOf last - c /\ valueOf last - c <= 1 # 200) /\
    (forall k : Z, c == inject_Z k / 100 -> represents last c).
Proof.
  split; [apply chartData_length|].
  exists (toFixed2 (Fin c)). split; [apply last_point|].
  assert (R : represents (toFixed2 (Fin c)) (round2 c))
    by apply toFixed2_represents, represents_Fin.
  split; [exact R|]. split.
  - rewrite (represents_value _ _ R). apply round2_near.
  - intros k Hk. apply (represents_eq _ _ _ R).
    rewrite (round2_comp _ _ Hk), Hk. apply round2_hundredth.
Qed.

Lemma endpoint_is_rounded_price_witness :
  exists last,
    option_map price
      (nth_error (chartData (utc_env half) (Fin 150.23) (Fin 0.025)) 29)
    = Some last /\
    represents last 150.23.
Proof.
  destruct (endpoint_is_rounded_price (utc_env half) 150.23 (Fin 0.025))
    as [_ [last [E [_ [_ H]]]]].
  exists last. split; [exact E|].
  apply (H 15023%Z). vm_compute. reflexivity.
Defined.

(** C2.  The code at a price of $0.1234 with a change of +2.5%: the
    current price is 0.1234, a positive number, and the last point of the
    chart is 0.12.  The loop forces the last daily price to the current
    price (its comment: to match the current price exactly) and then
    records it through [toFixed(2)] like every other point. *)
Theorem endpoint_of_four_decimals_is_rounded :
  represents (parsePrice "$0.1234") 0.1234 /\
  0 < 0.1234 /\
  match nth_error (stockChart (utc_env half) (stock "$0.1234" "+2.5%")) 29 with
  | Some last =>
      represents (price last) 0.12 /\
      ~ (valueOf (price last) == 0.1234)
  | None => False
  end.
Proof.
  split; [vm_compute; reflexivity|].
  split; [reflexivity|].
  unfold stockChart. rewrite chartData_nth by lia.
  split; [vm_compute; reflexivity|].
  intros H. vm_compute in H. discriminate H.
Qed.

(** C4.  The code at a price of $0.00 with a change of -100%: the current
    price is 0, the change rate is -1, the start price is 0/0, and the
    first 29 points are NaN, whatever the random source; only the forced
    last point is 0. *)
Theorem zero_price_full_drop (env : Env) :
  parsePrice "$0.00" = Fin 0 /\
  parseChange "-100%" = Fin (-1) /\
  startPrice (Fin 0) (Fin (-1)) = NaN /\
  map price (stockChart env (stock "$0.00" "-100%"))
  = repeat NaN 29 ++ [Fin 0].
Proof.
  split; [vm_compute; reflexivity|].
  split; [vm_compute; reflexivity|].
  split; [vm_compute; reflexivity|].
  unfold stockChart. rewrite chartData_map.
  vm_compute. reflexivity.
Qed.

(** The same happens when neither string can be parsed: the price falls
    back to 0 and the change rate is NaN. *)
Lemma unparseable_stock (env : Env) :
  parsePrice "N/A" = Fin 0 /\
  parseChange "N/A" = NaN /\
  map price (stockChart env (stock "N/A" "N/A"))
  = repeat NaN 29 ++ [Fin 0].
Proof.
  split; [vm_compute; reflexivity|].
  split; [vm_compute; reflexivity|].
  unfold stockChart. rewrite chartData_map.
  vm_compute. reflexivity.
Qed.

(** With a price of 0 and any change rate that is a number other than
    -100%, all 30 points are 0. *)
Lemma zero_price_flat (env : Env) (r : Q) :
  ~ r == -1 ->
  Forall (fun p => represents (price p) 0)
         (chartData env (Fin 0) (Fin r)) /\
  List.length (chartData env (Fin 0) (Fin r)) = 30%nat.
Proof.
  intros Hr. split; [|apply chartData_length].
  assert (S0 : represents (startPrice (Fin 0) (Fin r)) 0).
  { unfold startPrice. cbn [Math_abs lt].
    destruct (Qlt_bool (Qabs r) 0.001).
    - apply (represents_eq _ (0 * 0.95)); [|lra].
      apply mul_represents; apply represents_Fin.
    - apply (represents_eq _ (0 / (1 + r))); [|unfold Qdiv; lra].
      apply div_represents; [apply represents_Fin| |lra].
      apply add_represents; apply represents_Fin. }
  rewrite chartData_map. apply Forall_forall. intros p Hp.
  destruct (proj1 (in_map_iff _ _ _) Hp) as [i [<- Hi]].
  apply in_seq in Hi. cbn [entry price].
  apply (represents_eq _ (round2 0)); [|vm_compute; reflexivity].
  apply toFixed2_represents. unfold dailyPrice.
  destruct (i =? days - 1)%nat; [apply represents_Fin|].
  destruct (progress_represents i) as [q [Hq _]]; [lia|].
  assert (HT : represents (targetTrend (Fin 0) (startPrice (Fin 0) (Fin r)) i)
                          0).
  { apply (represents_eq _ (0 * q + 0 * (1 - q))); [|lra].
    unfold targetTrend.
    apply add_represents; apply mul_represents;
      try apply represents_Fin; try assumption.
    apply sub_represents; [apply represents_Fin | exact Hq]. }
  apply (represents_eq _ (0 + 0 * (random env i - 0.5) * 0.02)); [|lra].
  apply add_represents; [exact HT|]. unfold randomFluctuation, volatility.
  apply mul_represents; [|apply represents_Fin].
  apply mul_represents; [exact HT|].
  apply sub_represents; apply represents_Fin.
Qed.

(** C7.  The start price is 95% of the current price when the change rate
    is below 0.001 in absolute value, and the current price divided by one
    plus the change rate otherwise. *)
Theorem start_price_rule (currentPrice changeRate : num) (c r : Q) :
  (lt (Math_abs changeRate) (Fin 0.001) = true ->
   startPrice currentPrice changeRate = mul currentPrice (Fin 0.95)) /\
  (ge (Math_abs changeRate) (Fin 0.001) = true ->
   startPrice currentPrice changeRate
   = div currentPrice (add (Fin 1) changeRate)) /\
  (Qabs r < 1 # 1000 ->
   represents (startPrice (Fin c) (Fin r)) (c * (95 # 100))) /\
  (1 # 1000 <= Qabs r -> ~ r == -1 ->
   represents (startPrice (Fin c) (Fin r)) (c / (1 + r))).
Proof.
  split; [|split; [|split]].
  - intros H. unfold startPrice. now rewrite H.
  - intros H. unfold startPrice.
    destruct changeRate as [|b|q]; cbn [Math_abs ge le lt] in *;
      try discriminate; try reflexivity.
    unfold Qlt_bool. now rewrite H.
  - intros H. unfold startPrice. cbn [Math_abs lt].
    replace (Qlt_bool (Qabs r) 0.001) with true
      by (symmetry; apply Qlt_bool_iff; lra).
    apply (represents_eq _ (c * 0.95)); [|lra].
    apply mul_represents; apply represents_Fin.
  - intros H Hr. unfold startPrice. cbn [Math_abs lt].
    replace (Qlt_bool (Qabs r) 0.001) with false
      by (symmetry; apply Qlt_bool_false_iff; lra).
    apply div_represents; [apply represents_Fin| |lra].
    apply add_represents; apply represents_Fin.
Qed.

Lemma start_price_rule_witness :
  startPrice (Fin 200) (Fin 0) = mul (Fin 200) (Fin 0.95) /\
  startPrice (Fin 150.23) (Fin 0.025)
  = div (Fin 150.23) (add (Fin 1) (Fin 0.025)) /\
  represents (startPrice (Fin 200) (Fin 0)) (200 * (95 # 100)) /\
  represents (startPrice (Fin 150.23) (Fin 0.025)) (150.23 / (1 + 0.025)).
Proof.
  split; [|split; [|split]].
  - apply (start_price_rule (Fin 200) (Fin 0) 0 0). vm_compute. reflexivity.
  - apply (start_price_rule (Fin 150.23) (Fin 0.025) 0 0).
    vm_compute. reflexivity.
  - apply (start_price_rule NaN NaN 200 0). vm_compute. reflexivity.
  - apply (start_price_rule NaN NaN 150.23 0.025).
    + vm_compute. discriminate.
    + intros H. vm_compute in H. discriminate H.
Defined.

(** C10 (amended).  For a current price between 1e-100 and 1e100 and a
    change rate above -100% and up to 1e100, with draws of the interval
    from 0 to 1: on each of the 30 days the trend is positive, the
    fluctuation is at most 1% of the trend in absolute value, the daily
    price is positive before it is rounded, and the recorded price is not
    negative. *)
Theorem prices_positive (env : Env) (c r : Q) (i : nat) :
  unit_random env ->
  Binary64.moderate c -> Binary64.above_full_drop r -> (i < 30)%nat ->
  let start := startPrice (Fin c) (Fin r) in
  (exists t n,
      represents (targetTrend (Fin c) start i) t /\ 0 < t /\
      represents (randomFluctuation (Fin c) start i (random env i)) n /\
      - (t * (1 # 100)) <= n /\ n <= t * (1 # 100)) /\
  (exists q,
      represents (dailyPrice (Fin c) start i (random env i)) q /\ 0 < q) /\
  (exists p q,
      nth_error (chartData env (Fin c) (Fin r)) i = Some p /\
      represents (price p) q /\ 0 <= q).
Proof.
  intros Hu Mc Mr Hi start.
  pose proof (moderate_positive c Mc) as Hc.
  pose proof (above_full_drop_above r Mr) as Hr.
  destruct (startPrice_positive c r Hc Hr) as [s [Hs Hs0]].
  destruct (Hu i) as [U0 U1].
  destruct (targetTrend_positive c s start i Hc Hs Hs0 Hi) as [t [Ht T0]].
  destruct (randomFluctuation_small _ _ t _ i Ht T0 U0 U1)
    as [n [Hn [N0 N1]]].
  destruct (dailyPrice_positive c s (random env i) start i Hc Hs Hs0 U0 U1 Hi)
    as [q [Hq Hq0]].
  split; [|split].
  - exists t, n. repeat split; try assumption. lra.
  - exists q. split; assumption.
  - eexists. exists (round2 q). split; [apply chartData_nth, Hi|].
    cbn [entry price]. split.
    + apply toFixed2_represents, Hq.
    + apply round2_nonneg. lra.
Qed.

Lemma prices_positive_witness :
  exists q,
    represents
      (dailyPrice (Fin 150.23) (startPrice (Fin 150.23) (Fin (- (1 # 2)))) 0
                  (random (utc_env half) 0)) q /\
    0 < q.
Proof.
  refine (proj1 (proj2
            (prices_positive (utc_env half) 150.23 (- (1 # 2)) 0 _ _ _ _))).
  - intros i. split; vm_compute; [discriminate | reflexivity].
  - split; vm_compute; discriminate.
  - split; vm_compute; discriminate.
  - lia.
Defined.

(** C10, as stated, fails on binary64 numbers at both ends of their range.
    A price of 1e300 with a change of -99.99999999999999% is a positive
    price with a change rate above -1, but the start price overflows to
    the infinity, and with a draw of 0.5 the first daily price and the
    first point are NaN.  A price of 5e-324 (the smallest positive number)
    with a change of +300% has a start price that underflows to 0, and the
    first daily price is 0 before it is rounded. *)
Lemma extreme_prices_leave_the_range :
  (let currentPrice :=
     StockDetailModal64.parsePrice (String "1" (MoreExamples.zeros 300)) in
   let changeRate := StockDetailModal64.parseChange "-99.99999999999999%" in
   lt (Fin 0) currentPrice = true /\
   lt (Fin (-1)) changeRate = true /\
   StockDetailModal64.startPrice currentPrice changeRate = Inf false /\
   StockDetailModal64.dailyPrice currentPrice
     (StockDetailModal64.startPrice currentPrice changeRate) 0
     (random (utc_env half) 0) = NaN /\
   StockDetailModal64.price (utc_env half) currentPrice changeRate 0 = NaN)
  /\
  (let currentPrice :=
     StockDetailModal64.parsePrice
       ("0." ++ MoreExamples.zeros 323 ++ "5")%string in
   let changeRate := StockDetailModal64.parseChange "+300%" in
   lt (Fin 0) currentPrice = true /\
   changeRate = Fin 3 /\
   StockDetailModal64.startPrice currentPrice changeRate = Fin 0 /\
   StockDetailModal64.dailyPrice currentPrice
     (StockDetailModal64.startPrice currentPrice changeRate) 0
     (random (utc_env half) 0) = Fin 0).
Proof. split; vm_compute; repeat split. Qed.

(** C9 (amended).  The two anchors are not parsed by one rule.  The index
    anchor keeps digits and points only, so a minus sign is dropped and the
    parsed value is NaN or not negative (the positive infinity, when the
    digits are too many for a finite number); the price anchor keeps the
    minus sign too, and replaces NaN by 0.  On a string without a minus
    sign the price parser returns what the index parser returns, with NaN
    replaced by 0; a minus sign put in front of such a string changes
    nothing for the index parser and negates the parsed price. *)
Theorem anchor_parsers (s : string) :
  (MarketDashboard.parseVix s = NaN \/
   le (Fin 0) (MarketDashboard.parseVix s) = true) /\
  MarketDashboard.parseVix (String "-" s) = MarketDashboard.parseVix s /\
  (includes s "-" = false ->
   parsePrice s = or_else (MarketDashboard.parseVix s) (Fin 0)) /\
  (includes s "-" = false ->
   forall q, represents (parsePrice s) q ->
             represents (parsePrice (String "-" s)) (- q)).
Proof.
  split; [apply parseVix_not_negative|].
  split; [apply parseVix_minus|].
  split.
  - intros H. unfold parsePrice, MarketDashboard.parseVix.
    now rewrite replace_outside_no_minus.
  - intros H q. apply parsePrice_minus, H.
Qed.

Lemma anchor_parsers_witness :
  parsePrice "$150.23" = or_else (MarketDashboard.parseVix "$150.23") (Fin 0) /\
  represents (parsePrice "-$150.23") (Qopp 150.23).
Proof.
  destruct (anchor_parsers "$150.23") as [_ [_ [Same Minus]]].
  split.
  - apply Same. reflexivity.
  - apply Minus; [reflexivity|]. vm_compute. reflexivity.
Defined.

(** C9, as stated, fails: of the string -14.3 the index parser makes 14.3
    and the price parser -14.3. *)
Lemma index_parser_drops_sign :
  MarketDashboard.parseVix "-14.3" = Fin 14.3 /\
  parsePrice "-14.3" = Fin (-14.3) /\
  ~ (valueOf (MarketDashboard.parseVix "-14.3") < 0).
Proof.
  split; [vm_compute; reflexivity|].
  split; [vm_compute; reflexivity|].
  intros H. vm_compute in H. discriminate H.
Qed.

End StockDetailModalSpec.

(* ================================================================== *)
(** ** Further properties of the volatility chart                      *)
(* ================================================================== *)

Module RoundOrder.
Import NumFacts RoundFacts.

Lemma round_half_away_mono (a b : Q) :
  a <= b -> (round_half_away a <= round_half_away b)%Z.
Proof.
  intros H. unfold round_half_away.
  destruct (Qle_bool 0 a) eqn:Ea, (Qle_bool 0 b) eqn:Eb.
  - apply Qfloor_resp_le. lra.
  - apply Qle_bool_iff in Ea.
    assert (N : ~ 0 <= b) by (intros L; apply Qle_bool_iff in L; congruence).
    lra.
  - assert (N : ~ 0 <= a) by (intros L; apply Qle_bool_iff in L; congruence).
    apply Qle_bool_iff in Eb.
    assert (L1 : (0 <= Qfloor (- a + (1 # 2)))%Z).
    { rewrite <- (Qfloor_Z 0). apply Qfloor_resp_le.
      change (inject_Z 0) with 0. lra. }
    assert (L2 : (0 <= Qfloor (b + (1 # 2)))%Z).
    { rewrite <- (Qfloor_Z 0). apply Qfloor_resp_le.
      change (inject_Z 0) with 0. lra. }
    lia.
  - assert (L : (Qfloor (- b + (1 # 2)) <= Qfloor (- a + (1 # 2)))%Z)
      by (apply Qfloor_resp_le; lra).
    lia.
Qed.

Lemma round2_mono (a b : Q) : a <= b -> round2 a <= round2 b.
Proof.
  intros H. unfold round2.
  assert (L : (round_half_away (a * 100) <= round_half_away (b * 100))%Z)
    by (apply round_half_away_mono; lra).
  rewrite Zle_Qle in L. over100. lra.
Qed.

#[global] Instance round2_proper : Proper (Qeq ==> Qeq) round2.
Proof. intros a b E. rewrite (round2_comp a b E). reflexivity. Qed.

(** Rounding commutes with the addition of a hundredth, as long as
    nothing is negative. *)
Lemma round2_add_hundredth (k : Z) (d : Q) :
  0 <= d -> 0 <= inject_Z k / 100 + d ->
  round2 (inject_Z k / 100 + d) == inject_Z k / 100 + round2 d.
Proof.
  intros Hd H. rewrite (round2_shift k d H).
  unfold round2 at 1, round_half_away.
  assert (E : Qle_bool 0 (d * 100) = true) by (apply Qle_bool_iff; lra).
  rewrite E. reflexivity.
Qed.

Lemma round2_nonpos (q : Q) : q <= 0 -> round2 q <= 0.
Proof.
  intros H. apply Qle_trans with (inject_Z 0 / 100); [|compute; discriminate].
  apply round2_upper. apply Qle_trans with 0; [exact H | compute; discriminate].
Qed.

End RoundOrder.

Module ChartShape.
Import NumFacts RoundFacts RoundOrder ParseFacts WalkFacts ChartFacts.
Import ShiftFacts MarketDashboard Examples.

(** X5.  The shift keeps the order of the values: a day that was not above
    another before the shift is not above it after, clipped or not. *)
Theorem shift_keeps_order (env : Env) (a : Q) (i j : nat) :
  (i < 365)%nat -> (j < 365)%nat ->
  exists series,
    chartData env (Some (Fin a)) = Some series /\
    (vixAt (generateMockVixData env) i <= vixAt (generateMockVixData env) j ->
     vixAt series i <= vixAt series j).
Proof.
  intros Hi Hj. rewrite chartData_number by reflexivity.
  eexists. split; [reflexivity|].
  rewrite !vixAt_generate, !vixAt_shifted by assumption. intros H.
  apply Q.max_le_compat_l, round2_mono. lra.
Qed.

Lemma shift_keeps_order_witness :
  exists series,
    chartData (utc_env low_then_high) (Some (Fin 0.25)) = Some series /\
    vixAt series 363 <= vixAt series 364.
Proof.
  destruct (shift_keeps_order (utc_env low_then_high) 0.25 363 364)
    as [series [E H]]; [lia | lia |].
  exists series. split; [exact E|].
  apply H. vm_compute. discriminate.
Defined.

(** X6.  The dates of the chart do not depend on the anchor: whatever the
    anchor, the records carry the time values and labels of the raw
    walk, in the same order. *)
Theorem shift_keeps_dates (env : Env) (realVixValue : option num) :
  exists series,
    chartData env realVixValue = Some series /\
    map timestamp series = map timestamp (generateMockVixData env) /\
    map dateStr series = map dateStr (generateMockVixData env) /\
    map month series = map month (generateMockVixData env).
Proof.
  destruct realVixValue as [v|].
  2: { exists (generateMockVixData env). now rewrite chartData_null. }
  destruct (isNaN v) eqn:E.
  - destruct v; try discriminate.
    exists (generateMockVixData env). now rewrite chartData_NaN.
  - rewrite chartData_number by exact E.
    eexists. split; [reflexivity|].
    rewrite !map_map. repeat split; apply map_ext; reflexivity.
Qed.

Lemma timestamp_shifted (diff : num) (d : sample) :
  timestamp (shifted diff d) = timestamp d.
Proof. reflexivity. Qed.

Lemma last_timestamp (env : Env) (b : num) :
  LocalTZA env (LocalTime env (now env)) false = LocalTZA env (now env) true ->
  timestamp (entry env 364 b) = now env.
Proof.
  intros H. rewrite entry_timestamp. unfold setDate_minus, UTC.
  replace (364 - Z.of_nat 364)%Z with 0%Z by reflexivity.
  rewrite Z.mul_0_l, Z.sub_0_r, H. unfold LocalTime. lia.
Qed.

(** X9.  The chart ends now.  Where the offset of local time read at the local
    time of the call is the one read at its instant, the last record of
    the chart carries the instant of the call, whatever the anchor. *)
Theorem chart_ends_now (env : Env) (realVixValue : option num) :
  LocalTZA env (LocalTime env (now env)) false = LocalTZA env (now env) true ->
  exists series last,
    chartData env realVixValue = Some series /\
    nth_error series 364 = Some last /\
    timestamp last = now env.
Proof.
  intros H.
  assert (L : (364 < 365)%nat) by exact (Nat.lt_succ_diag_r 364).
  destruct realVixValue as [v|].
  2: { exists (generateMockVixData env), (entry env 364 (walk env 365)).
       split; [apply chartData_null|].
       split; [exact (generateMockVixData_nth env 364 L)|].
       exact (last_timestamp env (walk env 365) H). }
  destruct (isNaN v) eqn:E.
  - destruct v; try discriminate.
    exists (generateMockVixData env), (entry env 364 (walk env 365)).
    split; [apply chartData_NaN|].
    split; [exact (generateMockVixData_nth env 364 L)|].
    exact (last_timestamp env (walk env 365) H).
  - exists (map (shifted (sub v (toFixed2 (walk env 365))))
                (generateMockVixData env)),
           (shifted (sub v (toFixed2 (walk env 365)))
                    (entry env 364 (walk env 365))).
    split; [exact (chartData_number env v E)|].
    split; [exact (shifted_nth env _ 364 L)|].
    rewrite timestamp_shifted.
    exact (last_timestamp env (walk env 365) H).
Qed.

Lemma chart_ends_now_witness :
  exists series last,
    chartData (utc_env low_then_high) None = Some series /\
    nth_error series 364 = Some last /\
    timestamp last = 1793664000000%Z.
Proof.
  apply (chart_ends_now (utc_env low_then_high) None). reflexivity.
Defined.

Lemma recorded_shifted_bounds (env : Env) (a : Q) (i : nat) :
  0 <= a ->
  Qmax 0 (round2 (recorded env i + (a - lastMock env))) <= round2 a + 35 /\
  round2 a - 35 <= Qmax 0 (round2 (recorded env i + (a - lastMock env))).
Proof.
  intros Ha.
  pose proof (recorded_band env i) as [B1 B2].
  pose proof (recorded_band env 364) as [L1 L2]. fold (lastMock env) in L1, L2.
  pose proof (round2_nonneg a Ha) as R0.
  assert (C35 : inject_Z 3500 / 100 == 35) by reflexivity.
  assert (U : round2 (inject_Z 3500 / 100 + a)
              == inject_Z 3500 / 100 + round2 a).
  { apply round2_add_hundredth; [exact Ha|]. rewrite C35. lra. }
  split.
  - apply Q.max_lub; [lra|].
    apply Qle_trans with (round2 (inject_Z 3500 / 100 + a)).
    + apply round2_mono. rewrite C35. lra.
    + rewrite U, C35. lra.
  - destruct (Qlt_le_dec a 35) as [Lt|Ge].
    + (* the anchor is below 35: the bound is not positive *)
      assert (round2 a <= inject_Z 3500 / 100)
        by (apply round2_upper; rewrite C35; lra).
      rewrite C35 in *.
      apply Qle_trans with 0; [lra | apply Q.le_max_l].
    + assert (V : round2 (inject_Z 3500 / 100 + (a - 35))
                  == inject_Z 3500 / 100 + round2 (a - 35)).
      { apply round2_add_hundredth; [lra|]. rewrite C35. lra. }
      rewrite (round2_comp (inject_Z 3500 / 100 + (a - 35)) a) in V
        by (rewrite C35; lra).
      rewrite C35 in V.
      apply Qle_trans with (round2 (recorded env i + (a - lastMock env)));
        [|apply Q.le_max_r].
      apply Qle_trans with (round2 (a - 35)); [lra|].
      apply round2_mono. lra.
Qed.

End ChartShape.

Module ChartRange.
Import NumFacts RoundFacts RoundOrder ParseFacts WalkFacts ChartFacts.
Import ShiftFacts ChartShape MarketDashboard Examples.

(** X7.  The clamp of the walk bounds the anchored chart too: every value is
    within 35.01 of the last value (the width of the band from 10 to 45,
    and one hundredth for the two roundings), and not negative, for an
    anchor of a billion at most. *)
Theorem anchored_values_near_last (env : Env) (value : string) (a : Q) :
  parseVix value = Fin a -> a <= 1000000000 ->
  exists series last,
    chartData env (realVixValue (Some value)) = Some series /\
    latestVix series = Some last /\
    forall i, (i < 365)%nat ->
      0 <= vixAt series i /\
      valueOf last - (3501 # 100) <= vixAt series i /\
      vixAt series i <= valueOf last + (3501 # 100).
Proof.
  intros Hp _. pose proof (parseVix_nonneg _ _ Hp) as Ha.
  cbn [realVixValue option_map]. rewrite Hp.
  rewrite chartData_number by reflexivity.
  destruct (MarketDashboardSpec.latestVix_shifted env a) as [last [E R]].
  eexists. exists last. split; [reflexivity|]. split; [exact E|].
  assert (V : valueOf last == round2 a).
  { rewrite (represents_value _ _ R). apply Q.max_r, round2_nonneg, Ha. }
  intros i Hi. rewrite vixAt_shifted by exact Hi. rewrite V.
  destruct (recorded_shifted_bounds env a i Ha) as [U L].
  split; [apply Q.le_max_l|]. split; lra.
Qed.

Lemma anchored_values_near_last_witness :
  exists series last,
    chartData (utc_env low_then_high) (realVixValue (Some "80"%string))
    = Some series /\
    latestVix series = Some last /\
    valueOf last - (3501 # 100) <= vixAt series 0.
Proof.
  destruct (anchored_values_near_last (utc_env low_then_high) "80" 80)
    as [series [last [E [L H]]]];
    [vm_compute; reflexivity | vm_compute; discriminate |].
  exists series, last. split; [exact E|]. split; [exact L|].
  apply (H 0%nat). lia.
Defined.

Lemma spec_day_step (v p : Q) :
  10 <= v -> v <= 45 -> -1 <= p -> p < 1 ->
  - (158 # 100) <= spec_day v p - v /\ spec_day v p - v <= 108 # 100.
Proof.
  intros V1 V2 P1 P2. unfold spec_day, spec_clamp, spec_target, spec_floor,
    spec_ceiling.
  set (u := v + p + (2 # 100) * (15 - (v + p))).
  assert (U1 : - (158 # 100) <= u - v) by (unfold u; lra).
  assert (U2 : u - v <= 108 # 100) by (unfold u; lra).
  destruct (Q.min_spec 45 u) as [[M1 M2]|[M1 M2]];
    destruct (Q.max_spec 10 (Qmin 45 u)) as [[W1 W2]|[W1 W2]];
    set (m := Qmin 45 u) in *; set (w := Qmax 10 m) in *; lra.
Qed.

(** X8.  From one day to the next the raw walk falls by 1.58 at most and
    rises by 1.08 at most, in its recorded values as in its state. *)
Theorem daily_step_bounded (env : Env) (i : nat) :
  unit_random env -> (S i < 365)%nat ->
  - (158 # 100)
  <= vixAt (generateMockVixData env) (S i) - vixAt (generateMockVixData env) i
  /\
  vixAt (generateMockVixData env) (S i) - vixAt (generateMockVixData env) i
  <= 108 # 100.
Proof.
  intros Hr Hi. rewrite !vixAt_generate by lia. unfold recorded.
  set (v := spec_walk (perturbation env) (S i)).
  assert (E : spec_walk (perturbation env) (S (S i))
              = spec_day v (perturbation env (S i))) by reflexivity.
  rewrite E.
  destruct (spec_walk_band (perturbation env) (S i)) as [B1 B2]. fold v in B1, B2.
  assert (P : -1 <= perturbation env (S i) /\ perturbation env (S i) < 1).
  { unfold perturbation. destruct (Hr (S i)). lra. }
  destruct (spec_day_step v _ B1 B2 (proj1 P) (proj2 P)) as [S1 S2].
  set (v' := spec_day v (perturbation env (S i))) in *.
  assert (C108 : inject_Z 108 / 100 == 108 # 100) by reflexivity.
  assert (C158 : inject_Z 158 / 100 == 158 # 100) by reflexivity.
  split.
  - (* v - 1.58 <= v' *)
    assert (A : round2 (inject_Z 158 / 100 + (v - (158 # 100)))
                == inject_Z 158 / 100 + round2 (v - (158 # 100))).
    { apply round2_add_hundredth; rewrite ?C158; lra. }
    rewrite (round2_comp (inject_Z 158 / 100 + (v - (158 # 100))) v) in A
      by (rewrite C158; lra).
    rewrite C158 in A.
    assert (M : round2 (v - (158 # 100)) <= round2 v')
      by (apply round2_mono; lra).
    lra.
  - assert (A : round2 (inject_Z 108 / 100 + v)
                == inject_Z 108 / 100 + round2 v).
    { apply round2_add_hundredth; rewrite ?C108; lra. }
    assert (M : round2 v' <= round2 (inject_Z 108 / 100 + v))
      by (apply round2_mono; rewrite C108; lra).
    rewrite A, C108 in M. lra.
Qed.

Lemma daily_step_bounded_witness :
  vixAt (generateMockVixData (utc_env low_then_high)) 1
  - vixAt (generateMockVixData (utc_env low_then_high)) 0
  <= 108 # 100.
Proof.
  refine (proj2 (daily_step_bounded (utc_env low_then_high) 0 _ _)).
  - intros i. unfold utc_env, low_then_high. cbn [random].
    destruct (i <? 364)%nat; split; vm_compute; congruence.
  - lia.
Defined.

End ChartRange.

(* ================================================================== *)
(** ** The dashboard component: which anchor, which insight            *)
(* ================================================================== *)

Module DashboardViewFacts.
Import NumFacts RoundFacts RoundOrder ParseFacts WalkFacts ChartFacts.
Import ShiftFacts DashboardView Examples MoreExamples.

Lemma digits_stop (s : string) (acc : Z) (n : nat) :
  replace_outside isDigit s = EmptyString ->
  digits s acc n = (acc, n, s).
Proof.
  destruct s as [|c r]; cbn [replace_outside digits]; [reflexivity|].
  destruct (isDigit c); [discriminate | reflexivity].
Qed.

Lemma parseUnsigned_no_digit (s : string) :
  replace_outside isDigit s = EmptyString -> parseUnsigned s = None.
Proof.
  intros H. unfold parseUnsigned. rewrite (digits_stop s 0 0 H).
  destruct s as [|c r]; [reflexivity|].
  cbn [replace_outside] in H. destruct (isDigit c); [discriminate|].
  destruct (Ascii.eqb c "."); [|reflexivity].
  rewrite (digits_stop r 0 0 H). reflexivity.
Qed.

Lemma replace_outside_digits_of_stripped (s : string) :
  replace_outside isDigit (replace_outside digit_or_dot s)
  = replace_outside isDigit s.
Proof.
  induction s as [|c r IH]; [reflexivity|].
  cbn [replace_outside]. unfold digit_or_dot at 1.
  destruct (isDigit c) eqn:E; cbn [orb].
  - cbn [replace_outside]. rewrite E, IH. reflexivity.
  - destruct (Ascii.eqb c "."); [|exact IH].
    cbn [replace_outside]. rewrite E. exact IH.
Qed.

(** A value without a digit parses to NaN. *)
Lemma parseVix_no_digit (s : string) :
  replace_outside isDigit s = EmptyString -> MarketDashboard.parseVix s = NaN.
Proof.
  intros H. unfold MarketDashboard.parseVix. rewrite parseFloat_unsigned.
  rewrite parseUnsigned_no_digit; [reflexivity|].
  now rewrite replace_outside_digits_of_stripped.
Qed.

Lemma latestVix_raw (env : Env) :
  exists q,
    MarketDashboard.latestVix (MarketDashboard.generateMockVixData env)
    = Some (Fin q) /\ 10 <= q /\ q <= 45.
Proof.
  rewrite latestVix_generate.
  destruct (represents_inv _ _ (toFixed2_represents _ _ (walk_represents env 365)))
    as [q [E Hq]].
  exists q. split; [now rewrite E|].
  pose proof (round2_band _ (spec_walk_band (MarketDashboard.perturbation env) 365)).
  rewrite Hq. tauto.
Qed.

(** X3.  No usable VIX item.  When no index is a VIX item, or the value of
    the VIX item has no digit, the component shows the raw walk, and the
    level beside the chart is a number between 10 and 45. *)
Theorem dashboard_without_anchor (env : Env)
  (indices : option (list MarketIndex)) :
  (realVixItem (displayIndices indices) = None \/
   exists item, realVixItem (displayIndices indices) = Some item /\
                replace_outside isDigit (value item) = EmptyString) ->
  exists r q,
    MarketDashboard env indices = Some r /\
    shownChart r = MarketDashboard.generateMockVixData env /\
    shownVix r = Fin q /\ 10 <= q /\ q <= 45.
Proof.
  intros H.
  assert (E : MarketDashboard.chartData env (realVixValue (displayIndices indices))
              = Some (MarketDashboard.generateMockVixData env)).
  { unfold realVixValue. destruct H as [->|[item [-> D]]].
    - apply chartData_null.
    - cbn [option_map MarketDashboard.realVixValue].
      rewrite (parseVix_no_digit _ D). apply chartData_NaN. }
  destruct (latestVix_raw env) as [q [L B]].
  unfold MarketDashboard. cbv zeta. rewrite E, L.
  eexists. exists q. split; [reflexivity|]. cbn [shownChart shownVix]. tauto.
Qed.

Lemma dashboard_without_anchor_witness :
  exists r q,
    MarketDashboard (utc_env half) (Some (indices_with_vix "N/A")) = Some r /\
    shownChart r = MarketDashboard.generateMockVixData (utc_env half) /\
    shownVix r = Fin q /\ 10 <= q /\ q <= 45.
Proof.
  apply dashboard_without_anchor. right.
  eexists. split; [vm_compute; reflexivity | reflexivity].
Defined.

Lemma getVixInsight_fear (q : Q) :
  25 <= q -> sentiment (getVixInsight (Fin q)) = "공포 (Extreme Fear)"%string.
Proof.
  intros H. unfold getVixInsight. cbn [ge le].
  replace (Qle_bool 25 q) with true by (symmetry; apply Qle_bool_iff; exact H).
  reflexivity.
Qed.

Lemma getVixInsight_caution (q : Q) :
  17 <= q -> q < 25 ->
  sentiment (getVixInsight (Fin q)) = "경계 (Caution)"%string.
Proof.
  intros H1 H2. unfold getVixInsight. cbn [ge le].
  replace (Qle_bool 25 q) with false.
  2: { symmetry. destruct (Qle_bool 25 q) eqn:E; [|reflexivity].
       apply Qle_bool_iff in E. lra. }
  replace (Qle_bool 17 q) with true by (symmetry; apply Qle_bool_iff; exact H1).
  reflexivity.
Qed.

Lemma getVixInsight_stable (q : Q) :
  q < 17 -> sentiment (getVixInsight (Fin q)) = "안정/탐욕 (Stable)"%string.
Proof.
  intros H. unfold getVixInsight. cbn [ge le].
  replace (Qle_bool 25 q) with false.
  2: { symmetry. destruct (Qle_bool 25 q) eqn:E; [|reflexivity].
       apply Qle_bool_iff in E. lra. }
  replace (Qle_bool 17 q) with false.
  2: { symmetry. destruct (Qle_bool 17 q) eqn:E; [|reflexivity].
       apply Qle_bool_iff in E. lra. }
  reflexivity.
Qed.

(** X2.  The insight follows the anchor.  When the VIX item has a value
    that parses to a finite number [a], a billion at most, the level shown
    is a number within 0.005 of [a] and the sentiment is read off that
    level; whatever the random walk, it is fear for an anchor of 25 or
    more, caution for an anchor from 17 to 24.99, and stable for an anchor
    of 16.99 or less. *)
Theorem insight_of_anchor (env : Env) (indices : option (list MarketIndex))
  (item : MarketIndex) (a : Q) :
  realVixItem (displayIndices indices) = Some item ->
  MarketDashboard.parseVix (value item) = Fin a -> a <= 1000000000 ->
  exists r q,
    MarketDashboard env indices = Some r /\
    represents (shownVix r) q /\
    (- (1 # 200) <= q - a /\ q - a <= 1 # 200) /\
    shownInsight r = getVixInsight (shownVix r) /\
    (25 <= a ->
     sentiment (shownInsight r) = "공포 (Extreme Fear)"%string) /\
    (17 <= a -> a <= 2499 # 100 ->
     sentiment (shownInsight r) = "경계 (Caution)"%string) /\
    (a <= 1699 # 100 ->
     sentiment (shownInsight r) = "안정/탐욕 (Stable)"%string).
Proof.
  intros Hi Hp _. pose proof (parseVix_nonneg _ _ Hp) as Ha.
  unfold MarketDashboard. cbv zeta.
  unfold realVixValue. rewrite Hi. cbn [option_map MarketDashboard.realVixValue].
  rewrite Hp, chartData_number by reflexivity.
  destruct (MarketDashboardSpec.latestVix_shifted env a) as [last [E R]].
  rewrite E. eexists. exists (round2 a). split; [reflexivity|].
  cbn [shownVix shownInsight].
  assert (R' : represents last (round2 a)).
  { apply (represents_eq _ _ _ R), Q.max_r, round2_nonneg, Ha. }
  split; [exact R'|]. split; [apply round2_near|]. split; [reflexivity|].
  destruct (represents_inv _ _ R') as [q [-> Hq]].
  assert (C25 : inject_Z 2500 / 100 == 25) by reflexivity.
  assert (C17 : inject_Z 1700 / 100 == 17) by reflexivity.
  assert (C24 : inject_Z 2499 / 100 == 2499 # 100) by reflexivity.
  assert (C16 : inject_Z 1699 / 100 == 1699 # 100) by reflexivity.
  split; [|split].
  - intros H. apply getVixInsight_fear. rewrite Hq, <- C25.
    apply round2_lower. now rewrite C25.
  - intros H1 H2. apply getVixInsight_caution; rewrite Hq.
    + rewrite <- C17. apply round2_lower. now rewrite C17.
    + apply Qle_lt_trans with (inject_Z 2499 / 100); [|reflexivity].
      apply round2_upper. now rewrite C24.
  - intros H. apply getVixInsight_stable. rewrite Hq.
    apply Qle_lt_trans with (inject_Z 1699 / 100); [|reflexivity].
    apply round2_upper. now rewrite C16.
Qed.

Lemma insight_of_anchor_witness :
  exists r,
    MarketDashboard (utc_env half) (Some (indices_with_vix "25.3")) = Some r /\
    sentiment (shownInsight r) = "공포 (Extreme Fear)"%string.
Proof.
  destruct (insight_of_anchor (utc_env half)
              (Some (indices_with_vix "25.3"))
              {| name := "Cboe Vix"; value := "25.3"; change := "+3.1%";
                 isPositive := true |} (253 # 10))
    as [r [q [E [_ [_ [_ [F _]]]]]]].
  - vm_compute. reflexivity.
  - vm_compute. reflexivity.
  - vm_compute. discriminate.
  - exists r. split; [exact E|]. apply F. vm_compute. discriminate.
Defined.

(** X1.  The default card.  Without indices, or with an empty list of them,
    the component falls back on its default indices: the chart is anchored
    on their VIX of 13.50, which is the level shown, and the sentiment is
    the stable one, whatever the random walk. *)
Theorem dashboard_defaults (env : Env) :
  MarketDashboard env (Some []) = MarketDashboard env None /\
  exists r,
    MarketDashboard env None = Some r /\
    shownIndices r = defaultIndices /\
    represents (shownVix r) (135 # 10) /\
    sentiment (shownInsight r) = "안정/탐욕 (Stable)"%string.
Proof.
  split; [reflexivity|].
  assert (V : realVixItem (displayIndices None)
              = Some {| name := "VIX"; value := "13.50"; change := "-1.2%";
                        isPositive := false |})
    by (vm_compute; reflexivity).
  assert (Hp : MarketDashboard.parseVix "13.50" = Fin (27 # 2))
    by (vm_compute; reflexivity).
  pose proof (parseVix_nonneg _ _ Hp) as Ha.
  unfold MarketDashboard. cbv zeta.
  unfold realVixValue. rewrite V. cbn [option_map MarketDashboard.realVixValue value].
  rewrite Hp, chartData_number by reflexivity.
  destruct (MarketDashboardSpec.latestVix_shifted env (27 # 2)) as [last [E R]].
  rewrite E. eexists. split; [reflexivity|].
  cbn [shownVix shownInsight shownIndices].
  split; [reflexivity|].
  assert (R' : represents last (135 # 10)).
  { apply (represents_eq _ _ _ R). vm_compute. reflexivity. }
  split; [exact R'|].
  destruct (represents_inv _ _ R') as [q [-> Hq]].
  apply getVixInsight_stable. rewrite Hq. reflexivity.
Qed.

(** X4.  The cards without the VIX.  [cardsIndices] keeps the indices that
    are not VIX items, in their order; it is the whole list exactly when
    the search of the VIX item finds none, and the item found is the first
    index that [cardsIndices] drops. *)
Theorem cards_and_vix_item (l : list MarketIndex) :
  (realVixItem l = None <-> cardsIndices l = l) /\
  (forall item, realVixItem l = Some item ->
     In item l /\ ~ In item (cardsIndices l) /\
     exists before after,
       l = before ++ item :: after /\ cardsIndices before = before) /\
  (forall i, In i (cardsIndices l) -> In i l /\ realVixItem [i] = None).
Proof.
  unfold realVixItem, cardsIndices.
  set (isVix := fun i : MarketIndex =>
                  includesString (toUpperCase (name i)) "VIX"
                  || includesString (name i) "변동성").
  assert (F : forall l',
             filter (fun i => negb (includesString (toUpperCase (name i)) "VIX")
                              && negb (includesString (name i) "변동성")) l'
             = filter (fun i => negb (isVix i)) l').
  { intros l'. apply filter_ext. intros i. unfold isVix.
    now rewrite negb_orb. }
  rewrite F.
  split; [|split].
  - induction l as [|x l IH]; cbn [find filter]; [tauto|].
    destruct (isVix x) eqn:E; cbn [negb].
    + split; [discriminate|]. intros H.
      assert (L : (List.length (filter (fun i => negb (isVix i)) l)
                   <= List.length l)%nat) by apply filter_length_le.
      rewrite H in L. cbn [List.length] in L. lia.
    + rewrite IH. split; [intros ->; reflexivity | intros [= H]; exact H].
  - intros item H.
    split; [apply (find_some _ _ H)|]. split.
    + intros Hin. apply filter_In in Hin as [_ Hn].
      rewrite (proj2 (find_some _ _ H)) in Hn. discriminate.
    + revert H. induction l as [|x l IH]; cbn [find]; [discriminate|].
      destruct (isVix x) eqn:E.
      * intros [= <-]. exists [], l. split; reflexivity.
      * intros H. destruct (IH H) as [before [after [-> Hb]]].
        exists (x :: before), after. split; [reflexivity|].
        rewrite F in Hb |- *. cbn [filter]. rewrite E. cbn [negb].
        now rewrite Hb.
  - intros i Hin. apply filter_In in Hin as [Hin Hn].
    split; [exact Hin|]. cbn [find].
    apply negb_true_iff in Hn. now rewrite Hn.
Qed.

Lemma cards_and_vix_item_witness :
  In {| name := "VIX"; value := "13.50"; change := "-1.2%";
        isPositive := false |} defaultIndices /\
  ~ In {| name := "VIX"; value := "13.50"; change := "-1.2%";
          isPositive := false |} (cardsIndices defaultIndices).
Proof.
  destruct (proj1 (proj2 (cards_and_vix_item defaultIndices))
              {| name := "VIX"; value := "13.50"; change := "-1.2%";
                 isPositive := false |}) as [I [N _]].
  - vm_compute. reflexivity.
  - split; assumption.
Defined.

End DashboardViewFacts.

(* ================================================================== *)
(** ** The parsers of the display strings                              *)
(* ================================================================== *)

Module ParserFacts.
Import NumFacts ParseFacts StockDetailModal StockView.

Lemma digitValue_digit (c : ascii) :
  isDigit c = true -> (0 <= digitValue c <= 9)%Z.
Proof.
  unfold isDigit, digitValue. intros H.
  apply andb_true_iff in H as [H1 H2].
  apply Nat.leb_le in H1, H2. lia.
Qed.

(** A run of [k - n] digits read onto [acc] stays below
    [(acc + 1) * 10^(k - n)], and is no longer than the string has
    digits. *)
Lemma digits_bound (s : string) (acc : Z) (n : nat) :
  (0 <= acc)%Z ->
  (n <= snd (fst (digits s acc n)))%nat /\
  (snd (fst (digits s acc n)) - n <= digitCount s)%nat /\
  (fst (fst (digits s acc n)) + 1
   <= (acc + 1) * 10 ^ Z.of_nat (snd (fst (digits s acc n)) - n))%Z.
Proof.
  revert acc n. induction s as [|c r IH]; intros acc n Ha;
    cbn [digits].
  - cbn [fst snd]. rewrite Nat.sub_diag. cbn. lia.
  - unfold digitCount. cbn [replace_outside].
    destruct (isDigit c) eqn:E.
    + pose proof (digitValue_digit c E) as D.
      destruct (IH (acc * 10 + digitValue c)%Z (S n)) as [I1 [I2 I3]]; [lia|].
      cbn [String.length]. unfold digitCount in I2.
      split; [lia|]. split; [lia|].
      set (k := snd (fst (digits r (acc * 10 + digitValue c) (S n)))) in *.
      replace (Z.of_nat (k - n)) with (Z.succ (Z.of_nat (k - S n))) by lia.
      rewrite Z.pow_succ_r by lia.
      assert (P : (0 < 10 ^ Z.of_nat (k - S n))%Z)
        by (apply Z.pow_pos_nonneg; lia).
      nia.
    + cbn [fst snd]. rewrite Nat.sub_diag. cbn. lia.
Qed.

Lemma digits_rest_count (s : string) (acc : Z) (n : nat) :
  (snd (fst (digits s acc n)) - n + digitCount (snd (digits s acc n))
   <= digitCount s)%nat /\
  (n <= snd (fst (digits s acc n)))%nat.
Proof.
  revert acc n. induction s as [|c r IH]; intros acc n; cbn [digits].
  - cbn [fst snd]. lia.
  - unfold digitCount. cbn [replace_outside].
    destruct (isDigit c) eqn:E.
    + destruct (IH (acc * 10 + digitValue c)%Z (S n)) as [I1 I2].
      unfold digitCount in I1. cbn [String.length]. lia.
    + cbn [fst snd]. unfold digitCount. cbn [replace_outside]. rewrite E. lia.
Qed.

(** An unsigned literal is below 10 to the number of digits of the
    string. *)
Lemma parseUnsigned_bound (s : string) (q : Q) :
  parseUnsigned s = Some q -> q < inject_Z (10 ^ Z.of_nat (digitCount s)).
Proof.
  unfold parseUnsigned.
  destruct (digits_bound s 0 0 (Z.le_refl 0)) as [_ [_ B]].
  destruct (digits_rest_count s 0 0) as [C _].
  pose proof (digits_nonneg s 0 0 (Z.le_refl 0)) as Hip.
  destruct (digits s 0 0) as [[ip ni] s2]. cbn [fst snd] in *.
  rewrite Nat.sub_0_r in *. rewrite Z.mul_1_l in B.
  assert (G : forall m nf,
             (m + 1 <= (ip + 1) * 10 ^ Z.of_nat nf)%Z ->
             (if (ni + nf =? 0)%nat then None
              else Some (inject_Z m / inject_Z (10 ^ Z.of_nat nf))) = Some q ->
             q < inject_Z (10 ^ Z.of_nat (digitCount s))).
  { intros m nf Hm. destruct (ni + nf =? 0)%nat; [discriminate|].
    intros [= <-].
    assert (P : (0 < 10 ^ Z.of_nat nf)%Z) by (apply Z.pow_pos_nonneg; lia).
    assert (M : (10 ^ Z.of_nat ni <= 10 ^ Z.of_nat (digitCount s))%Z)
      by (apply Z.pow_le_mono_r; lia).
    apply Qlt_shift_div_r.
    - replace 0 with (inject_Z 0) by reflexivity. now rewrite <- Zlt_Qlt.
    - rewrite <- inject_Z_mult, <- Zlt_Qlt. nia. }
  destruct s2 as [|c r]; [apply G; lia|].
  destruct (Ascii.eqb c "."); [|apply G; lia].
  destruct (digits_bound r ip 0 Hip) as [_ [_ B']].
  destruct (digits r ip 0) as [[m nf] rest]. cbn [fst snd] in B'.
  rewrite Nat.sub_0_r in B'. apply G. exact B'.
Qed.

Lemma ten_308_fits : overflows (inject_Z (10 ^ 308)) = false.
Proof. vm_compute. reflexivity. Qed.

Lemma overflows_bound (m : Q) (n : nat) :
  (n <= 308)%nat -> m < inject_Z (10 ^ Z.of_nat n) -> overflows m = false.
Proof.
  intros Hn Hm. unfold overflows.
  destruct (Qle_bool (inject_Z (2 ^ 1024 - 2 ^ 970)) m) eqn:E; [|reflexivity].
  apply Qle_bool_iff in E. exfalso.
  assert (T : Qle_bool (inject_Z (2 ^ 1024 - 2 ^ 970)) (inject_Z (10 ^ 308))
              = false) by exact ten_308_fits.
  assert (L : inject_Z (10 ^ Z.of_nat n) <= inject_Z (10 ^ 308)).
  { rewrite <- Zle_Qle. apply Z.pow_le_mono_r; lia. }
  assert (C : Qle_bool (inject_Z (2 ^ 1024 - 2 ^ 970)) (inject_Z (10 ^ 308))
              = true).
  { apply Qle_bool_iff. apply Qle_trans with m; [exact E|].
    apply Qlt_le_weak. apply Qlt_le_trans with (inject_Z (10 ^ Z.of_nat n));
      assumption. }
  congruence.
Qed.

Lemma parseFloat_cases (s : string) :
  parseFloat s = NaN \/ (exists q, parseFloat s = Fin q) \/
  (exists b, parseFloat s = Inf b).
Proof.
  unfold parseFloat.
  destruct (match s with
            | EmptyString => (false, s)
            | String c r =>
                if Ascii.eqb c "-" then (true, r)
                else if Ascii.eqb c "+" then (false, r) else (false, s)
            end) as [negative s1].
  destruct (parseUnsigned s1) as [m|]; [right | now left].
  destruct (overflows m); [right | left]; eexists; reflexivity.
Qed.

(** A string of 308 digits at most parses to NaN or to a finite number. *)
Lemma parseFloat_finite (s : string) :
  (digitCount s <= 308)%nat ->
  parseFloat s = NaN \/ exists q, parseFloat s = Fin q.
Proof.
  intros H. unfold parseFloat.
  assert (G : forall negative s1,
             (digitCount s1 <= 308)%nat ->
             match parseUnsigned s1 with
             | None => NaN
             | Some magnitude =>
                 if overflows magnitude then Inf negative
                 else fin (if negative then - magnitude else magnitude)
             end = NaN \/
             exists q,
               match parseUnsigned s1 with
               | None => NaN
               | Some magnitude =>
                   if overflows magnitude then Inf negative
                   else fin (if negative then - magnitude else magnitude)
               end = Fin q).
  { intros negative s1 H1.
    destruct (parseUnsigned s1) as [m|] eqn:E; [right | now left].
    rewrite (overflows_bound m (digitCount s1) H1 (parseUnsigned_bound _ _ E)).
    eexists. reflexivity. }
  destruct s as [|c r]; [apply G; exact H|].
  assert (Hr : isDigit c = false -> (digitCount r <= 308)%nat).
  { intros D. unfold digitCount in *. cbn [replace_outside] in H.
    now rewrite D in H. }
  destruct (Ascii.eqb_spec c "-") as [->|_]; [apply G, Hr; reflexivity|].
  destruct (Ascii.eqb_spec c "+") as [->|_]; [apply G, Hr; reflexivity|].
  apply G. exact H.
Qed.

Lemma digitCount_stripped (s : string) :
  digitCount (replace_outside digit_dot_or_minus s) = digitCount s.
Proof.
  unfold digitCount. f_equal.
  induction s as [|c r IH]; [reflexivity|].
  cbn [replace_outside]. unfold digit_dot_or_minus at 1.
  destruct (isDigit c) eqn:E; cbn [orb].
  - cbn [replace_outside]. rewrite E, IH. reflexivity.
  - destruct (Ascii.eqb c "." || Ascii.eqb c "-"); [|exact IH].
    cbn [replace_outside]. rewrite E. exact IH.
Qed.

(** X10.  The parsed price is never NaN: what cannot be parsed is 0.  It is
    a finite number for every string of 308 digits at most (more digits
    can make it an infinity). *)
Theorem parsePrice_is_number (priceStr : string) :
  isNaN (parsePrice priceStr) = false /\
  ((digitCount priceStr <= 308)%nat -> exists q, parsePrice priceStr = Fin q).
Proof.
  unfold parsePrice, or_else. split.
  - destruct (parseFloat_cases (replace_outside digit_dot_or_minus priceStr))
      as [->|[[q ->]|[b ->]]]; cbn [truthy]; [reflexivity| |reflexivity].
    destruct (negb (Qeq_bool q 0)); reflexivity.
  - intros H. rewrite <- digitCount_stripped in H.
    destruct (parseFloat_finite _ H) as [->|[q ->]]; cbn [truthy].
    + now exists 0.
    + destruct (negb (Qeq_bool q 0)); [now exists q | now exists 0].
Qed.

Lemma parsePrice_is_number_witness :
  exists q, parsePrice "$1,234.50" = Fin q.
Proof.
  apply (proj2 (parsePrice_is_number "$1,234.50")). vm_compute. lia.
Defined.

Lemma replace_outside_app (cls : ascii -> bool) (a b : string) :
  replace_outside cls (a ++ b)
  = (replace_outside cls a ++ replace_outside cls b)%string.
Proof.
  induction a as [|c r IH]; cbn [String.append replace_outside];
    [reflexivity|].
  destruct (cls c); cbn [String.append]; now rewrite IH.
Qed.

Lemma replace_outside_skip (cls : ascii -> bool) (a b : string) (c : ascii) :
  cls c = false ->
  replace_outside cls (a ++ String c b) = replace_outside cls (a ++ b).
Proof.
  intros H. rewrite !replace_outside_app. cbn [replace_outside].
  now rewrite H.
Qed.

Lemma includes_app (a b : string) (c : ascii) :
  includes (a ++ b) c = includes a c || includes b c.
Proof.
  induction a as [|d r IH]; cbn [String.append includes]; [reflexivity|].
  now rewrite IH, orb_assoc.
Qed.

(** X11.  Separators and symbols do not count.  A character outside the
    class of a parser (a thousands separator, a currency or percent sign,
    a letter, a space) can be put anywhere in the string without changing
    what is parsed. *)
Theorem parsers_ignore_other_characters (a b : string) (c : ascii) :
  (digit_dot_or_minus c = false ->
   parsePrice (a ++ String c b) = parsePrice (a ++ b)) /\
  (digit_or_dot c = false ->
   MarketDashboard.parseVix (a ++ String c b)
   = MarketDashboard.parseVix (a ++ b)) /\
  (digit_dot_or_minus c = false ->
   parseChange (a ++ String c b) = parseChange (a ++ b)).
Proof.
  split; [|split]; intros H.
  - unfold parsePrice. now rewrite replace_outside_skip.
  - unfold MarketDashboard.parseVix. now rewrite replace_outside_skip.
  - unfold digit_dot_or_minus in H.
    apply orb_false_iff in H as [H1 H2]. fold (digit_or_dot c) in H1.
    unfold parseChange. rewrite (replace_outside_skip _ _ _ _ H1).
    rewrite !includes_app. cbn [includes]. now rewrite H2.
Qed.

Lemma parsers_ignore_other_characters_witness :
  parsePrice "$1,234.50" = parsePrice "$1234.50" /\
  MarketDashboard.parseVix "5,234.18" = MarketDashboard.parseVix "5234.18" /\
  parseChange "-1.1 %" = parseChange "-1.1%".
Proof.
  split; [|split].
  - apply (parsers_ignore_other_characters "$1" "234.50" ","). reflexivity.
  - apply (parsers_ignore_other_characters "5" "234.18" ","). reflexivity.
  - apply (parsers_ignore_other_characters "-1.1" "%" " "). reflexivity.
Defined.

(** The change rate is NaN, the quotient by 100 of a number that is not
    negative, with the sign of the string, or an infinity of that sign. *)
Lemma parseChange_cases (changeStr : string) :
  parseChange changeStr = NaN \/
  (exists a, 0 <= a /\
     represents (parseChange changeStr)
       (if includes changeStr "-" then - a / 100 else a / 100)) \/
  parseChange changeStr = Inf (includes changeStr "-").
Proof.
  unfold parseChange. fold (MarketDashboard.parseVix changeStr).
  destruct (parseVix_cases changeStr) as [->|[[a [-> Ha]]| ->]].
  - left. destruct (includes changeStr "-"); reflexivity.
  - right. left. exists a. split; [exact Ha|].
    destruct (includes changeStr "-").
    + apply div_represents; [|apply represents_Fin|lra].
      apply represents_fin.
    + apply div_represents; [apply represents_Fin|apply represents_Fin|lra].
  - right. right. destruct (includes changeStr "-"); reflexivity.
Qed.


(** X12.  The sign of the change rate is the minus sign.  When the change
    rate is a number, it is not negative if the string has no minus sign
    (the modal is drawn as positive) and not positive if it has one,
    wherever the sign stands; when it is an infinity (the digits of the
    string are too many for a finite number), it is the negative one
    exactly if the string has a minus sign. *)
Theorem parseChange_sign (changeStr : string) :
  (forall r, parseChange changeStr = Fin r ->
     if isPositive changeStr then 0 <= r else r <= 0) /\
  (forall b, parseChange changeStr = Inf b ->
     b = negb (isPositive changeStr)).
Proof.
  unfold isPositive. rewrite negb_involutive.
  destruct (parseChange_cases changeStr) as [->|[[a [Ha R]]| ->]].
  - split; [intros r|intros b]; discriminate.
  - split.
    + intros r E. rewrite E in R. cbn [represents] in R.
      destruct (includes changeStr "-"); cbn [negb]; rewrite R;
        unfold Qdiv; change (/ 100) with (1 # 100); lra.
    + intros b E. rewrite E in R. contradiction R.
  - split; [intros r; discriminate|]. now intros b [= <-].
Qed.

Lemma parseChange_sign_witness :
  exists r, parseChange "5-10%" = Fin r /\ r <= 0.
Proof.
  assert (E : parseChange "5-10%" = Fin (-51 # 10))
    by (vm_compute; reflexivity).
  exists (-51 # 10). split; [exact E|].
  exact (proj1 (parseChange_sign "5-10%") _ E).
Defined.

End ParserFacts.

(* ================================================================== *)
(** ** Further properties of the stock chart                           *)
(* ================================================================== *)

Module StockChartFacts.
Import NumFacts RoundFacts RoundOrder ParseFacts StockFacts ParserFacts.
Import StockDetailModal StockView Examples MoreExamples.

Lemma progress_value (i : nat) :
  represents (progress i) (inject_Z (Z.of_nat i) / 29).
Proof.
  apply div_represents; [apply represents_Fin | reflexivity | lra].
Qed.

Lemma fraction_bounds (i : nat) :
  (i <= 29)%nat ->
  0 <= inject_Z (Z.of_nat i) / 29 /\ inject_Z (Z.of_nat i) / 29 <= 1.
Proof.
  intros H.
  assert (L0 : inject_Z 0 <= inject_Z (Z.of_nat i))
    by (rewrite <- Zle_Qle; lia).
  assert (L1 : inject_Z (Z.of_nat i) <= inject_Z 29)
    by (rewrite <- Zle_Qle; lia).
  change (inject_Z 0) with 0 in L0. change (inject_Z 29) with 29 in L1.
  split; [apply Qle_shift_div_l | apply Qle_shift_div_r]; lra.
Qed.

Lemma targetTrend_value (c s : Q) (start : num) (i : nat) :
  represents start s ->
  represents (targetTrend (Fin c) start i)
             (s + (c - s) * (inject_Z (Z.of_nat i) / 29)).
Proof.
  intros Hs. unfold targetTrend.
  eapply represents_eq.
  - apply add_represents; apply mul_represents.
    + apply represents_Fin.
    + apply progress_value.
    + exact Hs.
    + apply sub_represents; [apply represents_Fin | apply progress_value].
  - lra.
Qed.

(** X14.  The trend is the straight line between the two prices.  It is the
    start price on day 0 and the current price on day 29, and it moves by
    the same amount, a 29th of their difference, from each day to the
    next. *)
Theorem trend_is_linear (c s : Q) (start : num) (i : nat) :
  represents start s -> (i < 29)%nat ->
  represents (targetTrend (Fin c) start 0) s /\
  represents (targetTrend (Fin c) start 29) c /\
  exists t t',
    represents (targetTrend (Fin c) start i) t /\
    represents (targetTrend (Fin c) start (S i)) t' /\
    t' - t == (c - s) / 29.
Proof.
  intros Hs Hi. split; [|split].
  - apply (represents_eq _ _ _ (targetTrend_value c s start 0 Hs)).
    change (inject_Z (Z.of_nat 0) / 29) with (0 / 29). field.
  - apply (represents_eq _ _ _ (targetTrend_value c s start 29 Hs)).
    change (inject_Z (Z.of_nat 29) / 29) with (29 / 29). field.
  - eexists. eexists.
    split; [apply targetTrend_value, Hs|].
    split; [apply targetTrend_value, Hs|].
    rewrite Nat2Z.inj_succ. unfold Z.succ. rewrite inject_Z_plus.
    change (inject_Z 1) with 1. field.
Qed.

Lemma trend_is_linear_witness :
  represents (targetTrend (Fin 150.23) (Fin 146.57) 29) 150.23.
Proof.
  refine (proj1 (proj2 (trend_is_linear 150.23 146.57 (Fin 146.57) 0 _ _))).
  - apply represents_Fin.
  - lia.
Defined.

(** X13.  Which way the chart goes.  For a current price between 1e-100
    and 1e100 and a change rate above -100% and up to 1e100, the start
    price is positive and lies below the current price when the change
    rate is 0.1% or more, above it when the rate is -0.1% or less, and 5%
    below it for the rates in between, negative ones included: a stock
    that lost less than 0.1% is drawn rising. *)
Theorem start_price_direction (c r : Q) :
  Binary64.moderate c -> Binary64.above_full_drop r ->
  exists s,
    represents (startPrice (Fin c) (Fin r)) s /\ 0 < s /\
    (1 # 1000 <= r -> s < c) /\
    (r <= - (1 # 1000) -> c < s) /\
    (- (1 # 1000) < r -> r < 1 # 1000 -> s == c * (95 # 100) /\ s < c).
Proof.
  intros Mc Mr.
  pose proof (moderate_positive c Mc) as Hc.
  pose proof (above_full_drop_above r Mr) as Hr.
  unfold startPrice. cbn [Math_abs lt].
  destruct (Qlt_bool (Qabs r) 0.001) eqn:E.
  - apply Qlt_bool_iff in E. apply Qabs_Qlt_condition in E.
    exists (c * (95 # 100)). split.
    + apply (represents_eq _ (c * 0.95)); [|lra].
      apply mul_represents; apply represents_Fin.
    + split; [lra|]. repeat split; try lra.
  - apply Qlt_bool_false_iff in E.
    assert (P : 0 < 1 + r) by lra.
    exists (c / (1 + r)). split.
    + apply div_represents; [apply represents_Fin| |lra].
      apply add_represents; apply represents_Fin.
    + split; [apply Qlt_shift_div_l; lra|].
      assert (A : r < 1 # 1000 -> - (1 # 1000) < r -> False).
      { intros A1 A2.
        assert (Qabs r < 1 # 1000) by (apply Qabs_Qlt_condition; lra).
        change (0.001) with (1 # 1000) in E. lra. }
      split; [|split].
      * intros H. apply Qlt_shift_div_r; [exact P|].
        assert (0 < c * r) by (apply Qmult_lt_0_compat; lra). lra.
      * intros H. apply Qlt_shift_div_l; [exact P|].
        assert (0 < c * (- r)) by (apply Qmult_lt_0_compat; lra). lra.
      * intros H1 H2. exfalso. apply A; assumption.
Qed.

Lemma start_price_direction_witness :
  exists s,
    represents (startPrice (Fin 100) (Fin (- (5 # 10000)))) s /\ s < 100.
Proof.
  destruct (start_price_direction 100 (- (5 # 10000)))
    as [s [R [_ [_ [_ H]]]]];
    [split; vm_compute; discriminate | split; vm_compute; discriminate |].
  exists s. split; [exact R|]. apply H; reflexivity.
Defined.

End StockChartFacts.

Module StockChartRange.
Import NumFacts RoundFacts RoundOrder ParseFacts StockFacts ParserFacts.
Import StockChartFacts StockDetailModal StockView Examples MoreExamples.


(** X16.  No floor under the prices.  For a current price between 1e-100
    and 1e100 and a change rate below -100%, down to -1e100, the start
    price is negative, so the first daily price is negative whatever the
    draw, and the first recorded price is not positive. *)
Theorem first_price_negative (env : Env) (c r : Q) :
  unit_random env -> Binary64.moderate c -> Binary64.below_full_drop r ->
  exists s d p q,
    represents (startPrice (Fin c) (Fin r)) s /\ s < 0 /\
    represents (dailyPrice (Fin c) (startPrice (Fin c) (Fin r)) 0
                           (random env 0)) d /\ d < 0 /\
    nth_error (chartData env (Fin c) (Fin r)) 0 = Some p /\
    represents (price p) q /\ q <= 0.
Proof.
  intros Hu Mc Mr. destruct (Hu 0%nat) as [U0 U1].
  pose proof (moderate_positive c Mc) as Hc.
  pose proof (below_full_drop_below r Mr) as Hr.
  assert (Hs : represents (startPrice (Fin c) (Fin r)) (c / (1 + r))).
  { unfold startPrice. cbn [Math_abs lt].
    replace (Qlt_bool (Qabs r) 0.001) with false.
    - apply div_represents; [apply represents_Fin| |lra].
      apply add_represents; apply represents_Fin.
    - symmetry. apply Qlt_bool_false_iff.
      rewrite Qabs_neg by lra. change 0.001 with (1 # 1000). lra. }
  assert (S0 : c / (1 + r) < 0).
  { assert (0 < c / (- (1 + r))) by (apply Qlt_shift_div_l; lra).
    assert (E : c / (1 + r) == - (c / (- (1 + r)))) by (field; lra).
    rewrite E. lra. }
  set (s := c / (1 + r)) in *.
  set (start := startPrice (Fin c) (Fin r)) in *.
  assert (Ht : represents (targetTrend (Fin c) start 0) s).
  { apply (represents_eq _ _ _ (targetTrend_value c s start 0 Hs)).
    change (inject_Z (Z.of_nat 0) / 29) with (0 / 29). field. }
  set (d := s + s * (random env 0 - 0.5) * 0.02).
  assert (Hd : represents (dailyPrice (Fin c) start 0 (random env 0)) d).
  { unfold dailyPrice. cbn [Nat.eqb days Nat.sub].
    apply add_represents; [exact Ht|]. unfold randomFluctuation, volatility.
    apply mul_represents; [|apply represents_Fin].
    apply mul_represents; [exact Ht|].
    apply sub_represents; apply represents_Fin. }
  assert (D0 : d < 0).
  { unfold d.
    assert (0 < (- s) * (1 + (random env 0 - 0.5) * 0.02))
      by (apply Qmult_lt_0_compat; lra).
    lra. }
  exists s, d. eexists. exists (round2 d).
  split; [exact Hs|]. split; [exact S0|]. split; [exact Hd|].
  split; [exact D0|]. split; [apply chartData_nth; lia|].
  cbn [entry price]. split; [apply toFixed2_represents, Hd|].
  apply round2_nonpos. lra.
Qed.

Lemma first_price_negative_witness :
  exists s, represents (startPrice (Fin 100) (Fin (- (3 # 2)))) s /\ s < 0.
Proof.
  destruct (first_price_negative (utc_env half) 100 (- (3 # 2)))
    as [s [_ [_ [_ [R [S0 _]]]]]].
  - intros i. split; vm_compute; [discriminate | reflexivity].
  - split; vm_compute; discriminate.
  - split; vm_compute; discriminate.
  - exists s. split; assumption.
Defined.

End StockChartRange.

Module StockModalFacts.
Import NumFacts RoundFacts RoundOrder ParseFacts StockFacts ParserFacts.
Import StockChartFacts StockDetailModal StockView Examples MoreExamples.

Lemma mul_Inf_pos (y : Q) : 0 < y -> mul (Inf false) (Fin y) = Inf false.
Proof.
  intros H. cbn [mul].
  replace (Qeq_bool y 0) with false.
  2: { symmetry. destruct (Qeq_bool y 0) eqn:E; [|reflexivity].
       apply Qeq_bool_eq in E. lra. }
  replace (Qlt_bool y 0) with false
    by (symmetry; apply Qlt_bool_false_iff; lra).
  reflexivity.
Qed.

Lemma mul_Inf_neg (y : Q) : y < 0 -> mul (Inf false) (Fin y) = Inf true.
Proof.
  intros H. cbn [mul].
  replace (Qeq_bool y 0) with false.
  2: { symmetry. destruct (Qeq_bool y 0) eqn:E; [|reflexivity].
       apply Qeq_bool_eq in E. lra. }
  replace (Qlt_bool y 0) with true by (symmetry; apply Qlt_bool_iff; lra).
  reflexivity.
Qed.

Lemma mul_Inf_zero (y : Q) : y == 0 -> mul (Inf false) (Fin y) = NaN.
Proof.
  intros H. cbn [mul]. now rewrite (Qeq_eq_bool _ _ H).
Qed.

Lemma targetTrend_Inf (c : Q) (i : nat) :
  (i < 29)%nat -> targetTrend (Fin c) (Inf false) i = Inf false.
Proof.
  intros Hi. unfold targetTrend.
  destruct (represents_inv _ _ (progress_value i)) as [p [Ep Hp]].
  rewrite Ep.
  assert (P : p < 1).
  { rewrite Hp. apply Qlt_shift_div_r; [reflexivity|].
    assert (L : inject_Z (Z.of_nat i) < inject_Z 29)
      by (rewrite <- Zlt_Qlt; lia).
    change (inject_Z 29) with 29 in L. lra. }
  cbn [sub]. unfold fin.
  rewrite mul_Inf_pos by (rewrite Qred_correct; lra).
  reflexivity.
Qed.

(** X17.  A change of -100% on a positive price.  The start price is then
    the positive infinity, and none of the first 29 points is a finite
    number: a point is Infinity when its draw is above 0.5 and NaN
    otherwise; only the forced last point is the price. *)
Theorem full_drop_chart (env : Env) (c : Q) (i : nat) :
  0 < c -> (i < 29)%nat ->
  startPrice (Fin c) (Fin (-1)) = Inf false /\
  exists p,
    nth_error (chartData env (Fin c) (Fin (-1))) i = Some p /\
    price p = (if Qlt_bool (1 # 2) (random env i) then Inf false else NaN).
Proof.
  intros Hc Hi.
  assert (S : startPrice (Fin c) (Fin (-1)) = Inf false).
  { unfold startPrice. cbn [Math_abs lt add fin div].
    change (Qlt_bool (Qabs (-1)) 0.001) with false. cbv iota.
    change (Qeq_bool (Qred (1 + -1)) 0) with true. cbv iota.
    replace (Qeq_bool c 0) with false.
    2: { symmetry. destruct (Qeq_bool c 0) eqn:E; [|reflexivity].
         apply Qeq_bool_eq in E. lra. }
    replace (Qlt_bool c 0) with false
      by (symmetry; apply Qlt_bool_false_iff; lra).
    reflexivity. }
  split; [exact S|].
  eexists. split; [apply chartData_nth; lia|].
  cbn [entry price]. rewrite S. unfold dailyPrice.
  replace (i =? days - 1)%nat with false
    by (symmetry; apply Nat.eqb_neq; cbn; lia).
  unfold randomFluctuation. rewrite targetTrend_Inf by exact Hi.
  unfold volatility. cbn [sub]. unfold fin.
  set (w := Qred (random env i - 0.5)).
  assert (W : w == random env i - (1 # 2)) by (unfold w; rewrite Qred_correct; lra).
  destruct (Qlt_bool (1 # 2) (random env i)) eqn:E.
  - apply Qlt_bool_iff in E. rewrite mul_Inf_pos by lra. reflexivity.
  - apply Qlt_bool_false_iff in E.
    destruct (Qlt_le_dec w 0) as [N|N].
    + rewrite mul_Inf_neg by exact N. reflexivity.
    + rewrite mul_Inf_zero by lra. reflexivity.
Qed.

Lemma full_drop_chart_witness :
  exists p,
    nth_error (chartData (utc_env three_quarters) (Fin 100) (Fin (-1))) 0
    = Some p /\
    price p = Inf false.
Proof.
  destruct (full_drop_chart (utc_env three_quarters) 100 0)
    as [_ [p [E H]]]; [reflexivity | lia |].
  exists p. split; [exact E | exact H].
Defined.



End StockModalFacts.

(* ================================================================== *)
(** ** The stock tables that open the modal                            *)
(* ================================================================== *)

Module TableFacts.
Import ParserFacts StockView Examples.

Lemma startsWith_minus_includes (s : string) :
  startsWith s "-" = true -> includes s "-" = true.
Proof.
  unfold startsWith. destruct s as [|c r]; cbn [prefix includes];
    [discriminate|].
  destruct (ascii_dec "-" c) as [<-|N]; [reflexivity | discriminate].
Qed.

(** X19.  A rose row opens a red modal.  Outside the table of the losers, a
    row whose change is written in rose has a change that begins with a
    minus sign, and the modal it opens is drawn as negative; in the table
    of the gainers no change is ever written in rose. *)
Theorem rose_row_opens_red_modal (change : string) (type : tableType) :
  (type <> loser -> changeClass change type = "text-rose-600"%string ->
   type = neutral /\ startsWith change "-" = true /\
   isPositive change = false) /\
  changeClass change gainer = "text-emerald-600"%string.
Proof.
  split.
  - intros Ht. unfold changeClass.
    destruct (startsWith change "+"); cbn [orb]; [discriminate|].
    destruct type; cbn [isGainer isLoser]; try discriminate; [tauto|].
    destruct (startsWith change "-") eqn:E; cbn [orb]; [|discriminate].
    intros _. split; [reflexivity|]. split; [reflexivity|].
    unfold isPositive. now rewrite (startsWith_minus_includes _ E).
  - unfold changeClass. cbn [isGainer]. now rewrite orb_true_r.
Qed.

Lemma rose_row_opens_red_modal_witness :
  isPositive "-1.2%" = false.
Proof.
  apply (rose_row_opens_red_modal "-1.2%" neutral);
    [discriminate | reflexivity].
Defined.

Lemma append_assoc (a b c : string) :
  ((a ++ b) ++ c = a ++ (b ++ c))%string.
Proof.
  induction a as [|x r IH]; cbn [String.append]; [reflexivity|].
  now rewrite IH.
Qed.

Lemma splitLines_one (a : string) :
  includes a (ascii_of_nat 10) = false -> splitLines a = [a].
Proof.
  induction a as [|c r IH]; cbn [includes splitLines]; [reflexivity|].
  intros H. apply orb_false_iff in H as [Hc Hr].
  rewrite Hc, (IH Hr). reflexivity.
Qed.

Lemma splitLines_first (a b : string) :
  includes a (ascii_of_nat 10) = false ->
  splitLines (a ++ LF ++ b) = a :: splitLines b.
Proof.
  induction a as [|c r IH]; cbn [includes]; intros H.
  - reflexivity.
  - apply orb_false_iff in H as [Hc Hr].
    change ((String c r ++ LF ++ b)%string)
      with (String c (r ++ LF ++ b)%string).
    cbn [splitLines]. rewrite Hc, (IH Hr). reflexivity.
Qed.

Lemma splitLines_concat (l : list string) :
  l <> [] ->
  Forall (fun s => includes s (ascii_of_nat 10) = false) l ->
  splitLines (String.concat LF l) = l.
Proof.
  induction l as [|x [|y t] IH]; intros Hn Hl; [congruence| |].
  - cbn [String.concat]. apply splitLines_one. now inversion Hl.
  - change (String.concat LF (x :: y :: t))
      with (x ++ LF ++ String.concat LF (y :: t))%string.
    inversion Hl as [|? ? Hx Ht]; subst.
    rewrite splitLines_first by exact Hx.
    rewrite IH; [reflexivity | discriminate | exact Ht].
Qed.

(** An item none of whose fields has a line feed. *)
Lemma row_one_line (item : Types.StockItem) :
  includes (Types.ticker item) (ascii_of_nat 10) = false ->
  includes (Types.name item) (ascii_of_nat 10) = false ->
  includes (Types.price item) (ascii_of_nat 10) = false ->
  includes (Types.change item) (ascii_of_nat 10) = false ->
  includes (row item) (ascii_of_nat 10) = false.
Proof.
  intros H1 H2 H3 H4. unfold row. rewrite !includes_app.
  rewrite H1, H2, H3, H4. reflexivity.
Qed.

(** X20.  One line per stock.  When neither the title nor a field of an item
    has a line feed, the text copied from a table is, line by line, the
    title, the header and one row per item in the order of the table; of
    an empty table it is the title and the notice that there is no
    data. *)
Theorem table_text_lines (title : string) (items : list Types.StockItem) :
  includes title (ascii_of_nat 10) = false ->
  Forall (fun item =>
            includes (Types.ticker item) (ascii_of_nat 10) = false /\
            includes (Types.name item) (ascii_of_nat 10) = false /\
            includes (Types.price item) (ascii_of_nat 10) = false /\
            includes (Types.change item) (ascii_of_nat 10) = false) items ->
  splitLines (formatTableData title items)
  = match items with
    | [] => [title; "데이터 없음"%string]
    | _ => title :: "티커 | 종목명 | 현재가 | 등락률"%string :: map row items
    end.
Proof.
  intros Ht Hi. unfold formatTableData.
  destruct items as [|x t].
  - rewrite splitLines_first by exact Ht. reflexivity.
  - cbv zeta. rewrite !append_assoc, splitLines_first by exact Ht.
    rewrite splitLines_first by reflexivity.
    rewrite splitLines_concat; [reflexivity | discriminate |].
    apply Forall_forall. intros s Hs.
    destruct (proj1 (in_map_iff _ _ _) Hs) as [item [<- Hin]].
    rewrite Forall_forall in Hi. destruct (Hi item Hin) as [H1 [H2 [H3 H4]]].
    now apply row_one_line.
Qed.

Lemma table_text_lines_witness :
  splitLines (formatTableData "Top" [stock "$1" "+2%"; stock "$3" "-1%"])
  = ["Top"; "티커 | 종목명 | 현재가 | 등락률";
     "ACME | Acme | $1 | +2%"; "ACME | Acme | $3 | -1%"]%string.
Proof.
  apply (table_text_lines "Top" [stock "$1" "+2%"; stock "$3" "-1%"]).
  - reflexivity.
  - repeat constructor.
Defined.

End TableFacts.
